(** * Session manager and inference gateway client of the Python subsystem

    A shallow embedding of [ollama_client.py] (class [OllamaClient]) and of the
    routes of [main.py], with the properties of the session lifecycle stated
    over it.

    - JSON values, Python dicts used as maps: [gmap string _].
    - The client object ([self]) and the requests that left the process are
      threaded through a small state-and-exception monad [py].
    - The inference daemon is an oracle from the request posted to what
      [httpx] hands back. *)

From Stdlib Require Import ZArith.
From stdpp Require Import gmap strings list fin_maps.

Set Warnings "-register-all".
Open Scope string_scope.
Open Scope list_scope.

(** ** JSON values *)

(** What [json.loads] yields and what [json=...] serialises.  A float is
    carried as its printed form: the code never computes with one. *)
Inductive json :=
| JNull
| JBool (b : bool)
| JInt (n : Z)
| JFloat (repr : string)
| JStr (s : string)
| JArr (items : list json)
| JObj (fields : gmap string json).

(** [type(v).__name__], as it shows in an [AttributeError]. *)
Definition type_name (v : json) : string :=
  match v with
  | JNull => "NoneType"
  | JBool _ => "bool"
  | JInt _ => "int"
  | JFloat _ => "float"
  | JStr _ => "str"
  | JArr _ => "list"
  | JObj _ => "dict"
  end.

(** ** Exceptions and the [py] monad *)

Inductive exn_class :=
| ValueError
| RuntimeError
| AttributeError
| JSONDecodeError
| HTTPStatusError
| TransportError
| ValidationError.

(** An exception object: its class and [str(e)]. *)
Record exn := Exn { exn_cls : exn_class; exn_str : string }.

Inductive outcome (A : Type) :=
| Returned (a : A)
| Raised (e : exn).
Arguments Returned {A} a.
Arguments Raised {A} e.

(** The spec's names for the two failures the core raises. *)
Definition SessionNotFound (e : exn) : Prop := exn_cls e = ValueError.
Definition GatewayError (e : exn) : Prop := exn_cls e = RuntimeError.

(** ** Data model *)

(** One turn: the dict [{"role": ..., "content": ...}]. *)
Record Message := { role : string; content : json }.

(** One entry of [chat_sessions]: the dict [{"model": ..., "messages": ...}]. *)
Record Session := { model : string; messages : list Message }.

Record OllamaClient := {
  base_url : string;
  chat_sessions : gmap string Session
}.

(** A request as [httpx.post(url, json=payload, timeout=...)] issues it. *)
Record Post := {
  url : string;
  payload : gmap string json;
  timeout : Z
}.

(** The process state: the client object and the requests handed to
    [httpx.post] so far, oldest first. *)
Record World := {
  self : OllamaClient;
  wire : list Post
}.

(** ** The inference daemon as seen through [httpx] *)

Inductive Body :=
| Undecodable (detail : string)   (* [response.json()] raises, with this text *)
| Decoded (data : json).

Record Response := {
  status_code : Z;
  status_detail : string;         (* text of the error [raise_for_status] raises *)
  body : Body
}.

Inductive Reply :=
| NoResponse (detail : string)    (* [httpx.post] raises: refused, timed out, ... *)
| Answered (r : Response).

Definition Daemon := Post -> Reply.

Definition py (A : Type) : Type := World -> outcome A * World.

Definition ret {A} (a : A) : py A := fun w => (Returned a, w).

Definition raise {A} (e : exn) : py A := fun w => (Raised e, w).

Definition bind {A B} (c : py A) (k : A -> py B) : py B :=
  fun w =>
    match c w with
    | (Returned a, w') => k a w'
    | (Raised e, w') => (Raised e, w')
    end.

(** [try: c  except Exception as e: h e].  What [c] did to the state before
    it raised stays done. *)
Definition try_except {A} (c : py A) (h : exn -> py A) : py A :=
  fun w =>
    match c w with
    | (Returned a, w') => (Returned a, w')
    | (Raised e, w') => h e w'
    end.

Notation "x <~ c ;; k" := (bind c (fun x => k))
  (at level 100, c at next level, right associativity).
Notation "c ;;; k" := (bind c (fun _ => k))
  (at level 100, right associativity).

Definition get_self : py OllamaClient := fun w => (Returned (self w), w).

Definition set_sessions (t : gmap string Session) : py unit :=
  fun w =>
    (Returned tt,
     {| self := {| base_url := base_url (self w); chat_sessions := t |};
        wire := wire w |}).

(** [httpx.post]: the request is issued, then the daemon's answer (or the
    transport's failure) comes back. *)
Definition httpx_post (d : Daemon) (p : Post) : py Response :=
  fun w =>
    let w' := {| self := self w; wire := wire w ++ [p] |} in
    match d p with
    | NoResponse detail => (Raised (Exn TransportError detail), w')
    | Answered r => (Returned r, w')
    end.

(** [response.is_success]: a 2xx status; [raise_for_status] raises on any
    other. *)
Definition is_success (r : Response) : bool :=
  (200 <=? status_code r)%Z && (status_code r <? 300)%Z.

Definition raise_for_status (r : Response) : py unit :=
  if is_success r then ret tt
  else raise (Exn HTTPStatusError (status_detail r)).

Definition response_json (r : Response) : py json :=
  match body r with
  | Decoded data => ret data
  | Undecodable detail => raise (Exn JSONDecodeError detail)
  end.

(** [v.get(key, default)]: only a dict has [get]. *)
Definition py_get (v : json) (key : string) (dflt : json) : py json :=
  match v with
  | JObj fields => ret (default dflt (fields !! key))
  | _ =>
      raise (Exn AttributeError
               ("'" +:+ type_name v +:+ "' object has no attribute 'get'"))
  end.

(** Truth value of an [Optional[str]]: [None] and the empty string are
    falsy. *)
Definition truthy (s : option string) : bool :=
  match s with
  | Some (String _ _) => true
  | Some EmptyString => false
  | None => false
  end.

(** ** [ollama_client.py] *)

Module ollama_client.

(** [OllamaClient.__init__] *)
Definition __init__ (base_url : string) : OllamaClient :=
  {| base_url := base_url; chat_sessions := ∅ |}.

Definition default_base_url : string := "http://localhost:11434".

(** [lst.append(m)] on the list held by a session dict. *)
Definition append (session : Session) (m : Message) : Session :=
  {| model := model session; messages := messages session ++ [m] |}.

(** [self.chat_sessions[chat_id] = session] *)
Definition store (chat_id : string) (session : Session) : py unit :=
  client <~ get_self ;;
  set_sessions (<[chat_id := session]> (chat_sessions client)).

(** A transcript as the [messages] array of a chat payload. *)
Definition json_of_message (m : Message) : json :=
  JObj {[ "role" := JStr (role m); "content" := content m ]}.

Definition json_of_messages (ms : list Message) : json :=
  JArr (json_of_message <$> ms).

Definition init_chat (chat_id model : string) (system_prompt : option string)
  : py unit :=
  let messages :=
    if truthy system_prompt
    then [ {| role := "system"; content := JStr (default "" system_prompt) |} ]
    else [] in
  store chat_id {| model := model; messages := messages |}.

(** The dict literal [{"model": .., "messages": .., "stream": False,
    **parameters}]: the entries of [parameters] are written last, so on a
    common key theirs is the value kept ([∪] keeps the left one). *)
Definition chat_payload (session : Session) (parameters : gmap string json)
  : gmap string json :=
  parameters ∪
  {[ "model" := JStr (model session);
     "messages" := json_of_messages (messages session);
     "stream" := JBool false ]}.

Definition chat_message (d : Daemon) (chat_id message : string)
    (parameters : gmap string json) : py json :=
  client <~ get_self ;;
  match chat_sessions client !! chat_id with
  | None =>
      raise (Exn ValueError ("Chat session " +:+ chat_id +:+ " not found"))
  | Some session0 =>
      (* [session] is the object stored under [chat_id]: appending to its
         list changes the table's entry.  The payload holds that same list,
         serialised when the request is issued, before the reply is
         appended. *)
      let session := append session0 {| role := "user"; content := JStr message |} in
      store chat_id session ;;;
      let payload := chat_payload session parameters in
      try_except
        (response <~ httpx_post d {| url := base_url client +:+ "/api/chat";
                                     payload := payload;
                                     timeout := 60 |} ;;
         raise_for_status response ;;;
         data <~ response_json response ;;
         message_field <~ py_get data "message" (JObj ∅) ;;
         assistant_message <~ py_get message_field "content" (JStr "") ;;
         store chat_id
           (append session {| role := "assistant"; content := assistant_message |}) ;;;
         ret assistant_message)
        (fun e => raise (Exn RuntimeError ("Ollama chat API error: " +:+ exn_str e)))
  end.

(** [{"model": .., "prompt": .., "stream": False, **parameters}] *)
Definition generate_payload (model instruction : string)
    (parameters : gmap string json) : gmap string json :=
  parameters ∪
  {[ "model" := JStr model;
     "prompt" := JStr instruction;
     "stream" := JBool false ]}.

Definition single_query (d : Daemon) (model instruction : string)
    (parameters : gmap string json) : py json :=
  client <~ get_self ;;
  let url := base_url client +:+ "/api/generate" in
  let payload := generate_payload model instruction parameters in
  try_except
    (response <~ httpx_post d {| url := url; payload := payload; timeout := 60 |} ;;
     raise_for_status response ;;;
     data <~ response_json response ;;
     py_get data "response" (JStr ""))
    (fun e => raise (Exn RuntimeError ("Ollama API error: " +:+ exn_str e))).

Definition cleanup_chat (chat_id : string) : py unit :=
  client <~ get_self ;;
  match chat_sessions client !! chat_id with
  | Some _ => set_sessions (delete chat_id (chat_sessions client))
  | None => ret tt
  end.

(** The legacy entry point: [client = OllamaClient()] is a client of its
    own, built with the default base URL and dropped on return; the caller's
    client is not involved. *)
Definition run_ollama (d : Daemon) (model instruction : string)
    (parameters : gmap string json) : py json :=
  fun w =>
    let (r, w') :=
      single_query d model instruction parameters
        {| self := __init__ default_base_url; wire := wire w |} in
    (r, {| self := self w; wire := wire w' |}).

End ollama_client.

(** ** [main.py]: the routes *)

Module main.

Record ProcessRequest := {
  model : string;
  instruction : string;
  chat_id : option string;
  parameters : gmap string json
}.

(** The fields of the response model: [result: str | None],
    [chat_id: str | None], [error: str | None]. *)
Record ProcessResponse := {
  result : option string;
  resp_chat_id : option string;
  error : option string
}.

(** [ProcessResponse(result=result, chat_id=chat_id)].  The model checks
    [result] against [str | None] when the object is built (pydantic 2): a
    string and [None] pass, any other value raises a validation error.  The
    text of that error is the library's; [validation_text] gives it. *)
Definition new_response (validation_text : json -> string) (result : json)
    (chat_id : option string) : py ProcessResponse :=
  match result with
  | JStr text => ret {| result := Some text; resp_chat_id := chat_id; error := None |}
  | JNull => ret {| result := None; resp_chat_id := chat_id; error := None |}
  | v => raise (Exn ValidationError (validation_text v))
  end.

(** The module-level [ollama_client = OllamaClient()] is [self] of the
    world the route runs in.  The response is built inside the [try], so a
    validation error of the response is caught like any other. *)
Definition process (validation_text : json -> string) (d : Daemon)
    (req : ProcessRequest) : py ProcessResponse :=
  try_except
    (result <~
       (if truthy (chat_id req)
        then ollama_client.chat_message d (default "" (chat_id req))
               (instruction req) (parameters req)
        else ollama_client.single_query d (model req)
               (instruction req) (parameters req)) ;;
     new_response validation_text result (chat_id req))
    (fun e =>
       ret {| result := None; resp_chat_id := chat_id req;
              error := Some (exn_str e) |}).

(** The body of [/chat/init].  Its fields carry a prefix: [model] and
    [chat_id] name the fields of [ProcessRequest] in this module. *)
Record ChatInitRequest := {
  init_model : string;
  init_system_prompt : option string
}.

Record ChatInitResponse := {
  init_chat_id : string;
  init_error : option string
}.

(** [/chat/init]; [uuid] is the text of the identifier [uuid.uuid4()] drew
    for this call. *)
Definition init_chat (uuid : string) (req : ChatInitRequest)
  : py ChatInitResponse :=
  try_except
    (let chat_id := uuid in
     ollama_client.init_chat chat_id (init_model req) (init_system_prompt req) ;;;
     ret {| init_chat_id := chat_id; init_error := None |})
    (fun e => ret {| init_chat_id := ""; init_error := Some (exn_str e) |}).

(** [DELETE /chat/{chat_id}]; the answer is a plain dict. *)
Definition cleanup_chat (chat_id : string) : py (gmap string string) :=
  try_except
    (ollama_client.cleanup_chat chat_id ;;;
     ret {[ "status" := "success" ]})
    (fun e => ret {[ "error" := exn_str e ]}).

End main.

Import ollama_client.

(** ** Sequences of turns on one session *)

(** One [chat_message] call of a conversation: what the caller passes and
    how the daemon behaves during that call. *)
Record Turn := {
  turn_message : string;
  turn_parameters : gmap string json;
  turn_daemon : Daemon
}.

(** The calls of [turns] issued one after the other on [chat_id], whatever
    each one's outcome; the outcomes are collected in call order. *)
Fixpoint chat_messages (chat_id : string) (turns : list Turn) (w : World)
  : list (outcome json) * World :=
  match turns with
  | [] => ([], w)
  | t :: rest =>
      let (r, w1) :=
        chat_message (turn_daemon t) chat_id (turn_message t) (turn_parameters t) w in
      let (rs, w2) := chat_messages chat_id rest w1 in
      (r :: rs, w2)
  end.

Definition user_turn (message : string) : Message :=
  {| role := "user"; content := JStr message |}.

Definition assistant_turn (reply : json) : Message :=
  {| role := "assistant"; content := reply |}.

(** The transcript a session holds right after [init_chat]. *)
Definition system_turns (system_prompt : option string) : list Message :=
  if truthy system_prompt
  then [ {| role := "system"; content := JStr (default "" system_prompt) |} ]
  else [].

(** The transcript of the session stored under [chat_id], if any. *)
Definition transcript (w : World) (chat_id : string) : option (list Message) :=
  messages <$> (chat_sessions (self w) !! chat_id).

(** The model bound to the session stored under [chat_id], if any. *)
Definition bound_model (w : World) (chat_id : string) : option string :=
  model <$> (chat_sessions (self w) !! chat_id).

(** The exchanges of a run in which every call returned: call [i]
    contributes its user turn followed by its reply. *)
Fixpoint exchanges (turns : list Turn) (replies : list json) : list Message :=
  match turns, replies with
  | t :: turns', r :: replies' =>
      user_turn (turn_message t) :: assistant_turn r :: exchanges turns' replies'
  | _, _ => []
  end.

(** ** What a daemon answer amounts to *)

(** The value the [try] block of either operation computes from the
    daemon's answer, or the text of the exception that leaves it. *)
Definition attribute_error (v : json) : string :=
  "'" +:+ type_name v +:+ "' object has no attribute 'get'".

Definition decoded (rep : Reply) : string + json :=
  match rep with
  | NoResponse detail => inl detail
  | Answered r =>
      if is_success r then
        match body r with
        | Decoded data => inr data
        | Undecodable detail => inl detail
        end
      else inl (status_detail r)
  end.

Definition field_of (v : json) (key : string) (dflt : json) : string + json :=
  match v with
  | JObj fields => inr (default dflt (fields !! key))
  | _ => inl (attribute_error v)
  end.

Definition generate_text (rep : Reply) : string + json :=
  match decoded rep with
  | inl detail => inl detail
  | inr data => field_of data "response" (JStr "")
  end.

Definition chat_text (rep : Reply) : string + json :=
  match decoded rep with
  | inl detail => inl detail
  | inr data =>
      match field_of data "message" (JObj ∅) with
      | inl detail => inl detail
      | inr m => field_of m "content" (JStr "")
      end
  end.

Definition chat_post (client : OllamaClient) (session : Session)
    (parameters : gmap string json) : Post :=
  {| url := base_url client +:+ "/api/chat";
     payload := chat_payload session parameters;
     timeout := 60 |}.

Definition generate_post (client : OllamaClient) (model instruction : string)
    (parameters : gmap string json) : Post :=
  {| url := base_url client +:+ "/api/generate";
     payload := generate_payload model instruction parameters;
     timeout := 60 |}.

Definition with_session (w : World) (chat_id : string) (s : Session) : World :=
  {| self := {| base_url := base_url (self w);
                chat_sessions := <[chat_id := s]> (chat_sessions (self w)) |};
     wire := wire w |}.

Definition posted (w : World) (p : Post) : World :=
  {| self := self w; wire := wire w ++ [p] |}.

(** ** Scenario fixtures *)

(** A freshly started service: the module-level client, nothing posted. *)
Definition fresh_world : World :=
  {| self := __init__ default_base_url; wire := [] |}.

(** A daemon that answers every request with status 200 and the given
    decoded body. *)
Definition answering (data : json) : Daemon :=
  fun _ => Answered {| status_code := 200; status_detail := ""; body := Decoded data |}.

(** A daemon that cannot be reached. *)
Definition unreachable : Daemon :=
  fun _ => NoResponse "All connection attempts failed".

Definition chat_body (text : string) : json :=
  JObj {[ "message" := JObj {[ "role" := JStr "assistant"; "content" := JStr text ]} ]}.

Definition generate_body (text : string) : json :=
  JObj {[ "response" := JStr text ]}.

(** Number of turns of a transcript whose role is [system]. *)
Definition system_count (ts : list Message) : nat :=
  length (filter (fun m => role m = "system") ts).

(** The three core fields of a payload hold the core's own values. *)
Definition carries_core_fields (p : Post) (model : string)
    (text_key : string) (text : json) : Prop :=
  payload p !! "model" = Some (JStr model) /\
  payload p !! text_key = Some text /\
  payload p !! "stream" = Some (JBool false).

(** The fields the core itself writes into a payload, before the caller's
    parameters are merged in. *)
Definition generate_core (model instruction : string) : gmap string json :=
  {[ "model" := JStr model;
     "prompt" := JStr instruction;
     "stream" := JBool false ]}.

Definition chat_core (session : Session) : gmap string json :=
  {[ "model" := JStr (model session);
     "messages" := json_of_messages (messages session);
     "stream" := JBool false ]}.

(** Lookup in a dict literal ending in [**parameters]. *)
Definition merged (parameters core : gmap string json) (key : string)
  : option json :=
  match parameters !! key with
  | Some v => Some v
  | None => core !! key
  end.

(** The request with another [model] field. *)
Definition with_model (req : main.ProcessRequest) (model : string)
  : main.ProcessRequest :=
  {| main.model := model;
     main.instruction := main.instruction req;
     main.chat_id := main.chat_id req;
     main.parameters := main.parameters req |}.

(** A [/process] request for a turn on session [X]. *)
Definition turn_request (model : string) (parameters : gmap string json)
  : main.ProcessRequest :=
  {| main.model := model;
     main.instruction := "hi";
     main.chat_id := Some "X";
     main.parameters := parameters |}.

(** ** Failure conditions of a gateway call *)

(** The failures of the spec's taxonomy: no response at all (refused,
    timed out), a status outside 2xx, or a body that does not decode. *)
Definition daemon_failed (rep : Reply) : bool :=
  match rep with
  | NoResponse _ => true
  | Answered r =>
      negb (is_success r) ||
      match body r with
      | Undecodable _ => true
      | Decoded _ => false
      end
  end.

(** The text that comes with such a failure. *)
Definition underlying_detail (rep : Reply) : option string :=
  match rep with
  | NoResponse detail => Some detail
  | Answered r =>
      if is_success r then
        match body r with
        | Undecodable detail => Some detail
        | Decoded _ => None
        end
      else Some (status_detail r)
  end.

Definition is_object (v : json) : bool :=
  match v with
  | JObj _ => true
  | _ => false
  end.

(** Decoded bodies the extraction of [single_query] goes through: any JSON
    object. *)
Definition generate_shape_ok (data : json) : bool := is_object data.

(** Decoded bodies the extraction of [chat_message] goes through: a JSON
    object whose [message] field, when there is one, is a JSON object. *)
Definition chat_shape_ok (data : json) : bool :=
  match data with
  | JObj fields =>
      match fields !! "message" with
      | Some m => is_object m
      | None => true
      end
  | _ => false
  end.

(** A daemon failure, or a decoded body of the wrong shape. *)
Definition gateway_fails (shape_ok : json -> bool) (rep : Reply) : bool :=
  daemon_failed rep ||
  match rep with
  | Answered r =>
      match body r with
      | Decoded data => negb (shape_ok data)
      | Undecodable _ => false
      end
  | NoResponse _ => false
  end.

(** ** Runs of turns, whatever their outcomes *)

(** What one call leaves in the transcript of a stored session: its user
    turn, followed by the reply when the call returned. *)
Definition turn_trace (t : Turn) (o : outcome json) : list Message :=
  match o with
  | Returned reply => [user_turn (turn_message t); assistant_turn reply]
  | Raised _ => [user_turn (turn_message t)]
  end.

Definition run_trace (turns : list Turn) (outcomes : list (outcome json))
  : list Message :=
  concat (zip_with turn_trace turns outcomes).

(** The part of a transcript that turns build: unanswered user turns and
    user turns followed by their reply, in any number and order. *)
Inductive conversation : list Message -> Prop :=
| conversation_nil : conversation []
| conversation_unanswered ts message :
    conversation ts -> conversation (ts ++ [user_turn message])
| conversation_answered ts message reply :
    conversation ts ->
    conversation (ts ++ [user_turn message; assistant_turn reply]).

(** A transcript as the client builds them: what creation stored, then a
    conversation. *)
Definition well_formed (ts : list Message) : Prop :=
  exists system_prompt tail,
    ts = system_turns system_prompt ++ tail /\ conversation tail.

(** ** Operations of the service, in any order *)

Inductive Op :=
| OpInit (chat_id model : string) (system_prompt : option string)
| OpChat (d : Daemon) (chat_id message : string) (parameters : gmap string json)
| OpQuery (d : Daemon) (model instruction : string) (parameters : gmap string json)
| OpLegacy (d : Daemon) (model instruction : string) (parameters : gmap string json)
| OpCleanup (chat_id : string)
| OpRouteInit (uuid : string) (req : main.ChatInitRequest)
| OpRouteProcess (validation_text : json -> string) (d : Daemon)
    (req : main.ProcessRequest)
| OpRouteCleanup (chat_id : string).

(** The state an operation leaves, whether it returned or raised. *)
Definition run_op (op : Op) (w : World) : World :=
  match op with
  | OpInit chat_id model system_prompt => snd (init_chat chat_id model system_prompt w)
  | OpChat d chat_id message parameters => snd (chat_message d chat_id message parameters w)
  | OpQuery d model instruction parameters =>
      snd (single_query d model instruction parameters w)
  | OpLegacy d model instruction parameters =>
      snd (run_ollama d model instruction parameters w)
  | OpCleanup chat_id => snd (cleanup_chat chat_id w)
  | OpRouteInit uuid req => snd (main.init_chat uuid req w)
  | OpRouteProcess validation_text d req =>
      snd (main.process validation_text d req w)
  | OpRouteCleanup chat_id => snd (main.cleanup_chat chat_id w)
  end.

Definition run_ops (ops : list Op) (w : World) : World :=
  fold_left (fun w op => run_op op w) ops w.

(** The request with another [chat_id] field. *)
Definition with_chat_id (req : main.ProcessRequest) (chat_id : option string)
  : main.ProcessRequest :=
  {| main.model := main.model req;
     main.instruction := main.instruction req;
     main.chat_id := chat_id;
     main.parameters := main.parameters req |}.

(** Every stored transcript is well formed. *)
Definition sessions_well_formed (w : World) : Prop :=
  forall chat_id s,
    chat_sessions (self w) !! chat_id = Some s -> well_formed (messages s).

(** What [/process] answers for an outcome of the operation it called. *)
Definition process_response (validation_text : json -> string)
    (chat_id : option string) (o : outcome json) : main.ProcessResponse :=
  match o with
  | Returned (JStr text) =>
      {| main.result := Some text; main.resp_chat_id := chat_id; main.error := None |}
  | Returned JNull =>
      {| main.result := None; main.resp_chat_id := chat_id; main.error := None |}
  | Returned v =>
      {| main.result := None; main.resp_chat_id := chat_id;
         main.error := Some (validation_text v) |}
  | Raised e =>
      {| main.result := None; main.resp_chat_id := chat_id;
         main.error := Some (exn_str e) |}
  end.

(** A validation text for the scenarios. *)
Definition string_type_error (v : json) : string :=
  "1 validation error for ProcessResponse (result): input_type=" +:+ type_name v.

(** * Properties *)

(** ** Equations of the operations *)

Lemma chat_message_unknown d chat_id message parameters w :
  chat_sessions (self w) !! chat_id = None ->
  chat_message d chat_id message parameters w =
    (Raised (Exn ValueError ("Chat session " +:+ chat_id +:+ " not found")), w).
Proof.
  intros Hnone. unfold chat_message, bind, get_self. cbn. rewrite Hnone. reflexivity.
Qed.

Lemma chat_message_known d chat_id message parameters w s :
  chat_sessions (self w) !! chat_id = Some s ->
  let s1 := append s (user_turn message) in
  let p := chat_post (self w) s1 parameters in
  let w1 := posted (with_session w chat_id s1) p in
  chat_message d chat_id message parameters w =
    match chat_text (d p) with
    | inl detail =>
        (Raised (Exn RuntimeError ("Ollama chat API error: " +:+ detail)), w1)
    | inr reply =>
        (Returned reply, with_session w1 chat_id (append s1 (assistant_turn reply)))
    end.
Proof.
  intros Hs. cbn zeta.
  unfold chat_message, bind, get_self. cbn. rewrite Hs. cbn.
  unfold try_except, bind, httpx_post, chat_text, decoded, chat_post, user_turn. cbn.
  destruct (d _) as [detail|r] eqn:Hd; cbn; [reflexivity|].
  unfold raise_for_status.
  destruct (is_success r); cbn; [|reflexivity].
  unfold response_json.
  destruct (body r) as [detail|data]; cbn; [reflexivity|].
  destruct data; cbn; try reflexivity.
  destruct (default _ _); cbn; try reflexivity.
Qed.

Lemma single_query_eq d model instruction parameters w :
  let p := generate_post (self w) model instruction parameters in
  single_query d model instruction parameters w =
    (match generate_text (d p) with
     | inl detail => Raised (Exn RuntimeError ("Ollama API error: " +:+ detail))
     | inr reply => Returned reply
     end,
     posted w p).
Proof.
  cbn zeta.
  unfold single_query, bind, get_self, try_except, httpx_post,
    generate_text, decoded, generate_post, posted. cbn.
  destruct (d _) as [detail|r]; cbn; [reflexivity|].
  unfold raise_for_status.
  destruct (is_success r); cbn; [|reflexivity].
  unfold response_json.
  destruct (body r) as [detail|data]; cbn; [reflexivity|].
  destruct data; reflexivity.
Qed.

Lemma init_chat_eq chat_id model system_prompt w :
  init_chat chat_id model system_prompt w =
    (Returned tt,
     with_session w chat_id {| model := model; messages := system_turns system_prompt |}).
Proof. reflexivity. Qed.

Lemma world_eta w :
  {| self := {| base_url := base_url (self w);
                chat_sessions := chat_sessions (self w) |};
     wire := wire w |} = w.
Proof. destruct w as [[b t] l]. reflexivity. Qed.

Lemma cleanup_chat_eq chat_id w :
  cleanup_chat chat_id w =
    (Returned tt,
     {| self := {| base_url := base_url (self w);
                   chat_sessions := delete chat_id (chat_sessions (self w)) |};
        wire := wire w |}).
Proof.
  unfold cleanup_chat, bind, get_self, set_sessions, ret. cbn.
  destruct (chat_sessions (self w) !! chat_id) eqn:Hl; [reflexivity|].
  rewrite (delete_id _ _ Hl), world_eta. reflexivity.
Qed.

(** ** One turn: what it does to the stored session *)

Lemma transcript_with_session w chat_id s :
  transcript (with_session w chat_id s) chat_id = Some (messages s).
Proof. unfold transcript, with_session. cbn. by rewrite lookup_insert_eq. Qed.

Lemma bound_model_with_session w chat_id s :
  bound_model (with_session w chat_id s) chat_id = Some (model s).
Proof. unfold bound_model, with_session. cbn. by rewrite lookup_insert_eq. Qed.

(** A call on a stored session either raises the gateway error and leaves
    the user turn behind, or returns the reply and leaves both turns. *)
Lemma chat_message_step d chat_id message parameters w s :
  chat_sessions (self w) !! chat_id = Some s ->
  let r := chat_message d chat_id message parameters w in
  (exists detail,
      fst r = Raised (Exn RuntimeError ("Ollama chat API error: " +:+ detail)) /\
      chat_sessions (self (snd r)) !! chat_id =
        Some (append s (user_turn message))) \/
  (exists reply,
      fst r = Returned reply /\
      chat_sessions (self (snd r)) !! chat_id =
        Some (append (append s (user_turn message)) (assistant_turn reply))).
Proof.
  intros Hs r. subst r. rewrite (chat_message_known _ _ _ _ _ _ Hs).
  destruct (chat_text _) as [detail|reply]; [left|right]; eexists; cbn;
    (split; [reflexivity|]).
  - by rewrite lookup_insert_eq.
  - by rewrite lookup_insert_eq.
Qed.

Lemma chat_messages_cons chat_id t rest w :
  let r := chat_message (turn_daemon t) chat_id (turn_message t)
             (turn_parameters t) w in
  let rs := chat_messages chat_id rest (snd r) in
  chat_messages chat_id (t :: rest) w = (fst r :: fst rs, snd rs).
Proof.
  cbn [chat_messages].
  destruct (chat_message (turn_daemon t) chat_id _ _ w) as [r w1]. cbn [fst snd].
  by destruct (chat_messages chat_id rest w1).
Qed.

Lemma chat_messages_all_returned chat_id turns : forall w s replies,
  chat_sessions (self w) !! chat_id = Some s ->
  fst (chat_messages chat_id turns w) = Returned <$> replies ->
  length replies = length turns /\
  chat_sessions (self (snd (chat_messages chat_id turns w))) !! chat_id =
    Some {| model := model s; messages := messages s ++ exchanges turns replies |}.
Proof.
  induction turns as [|t turns IH]; intros w s replies Hs Hall.
  - destruct replies; [|discriminate]. split; [reflexivity|].
    cbn. rewrite Hs, app_nil_r. by destruct s.
  - rewrite chat_messages_cons in Hall |- *. cbn [fst snd] in Hall |- *.
    destruct replies as [|reply replies]; [discriminate|].
    rewrite fmap_cons in Hall. injection Hall as Hr Hrs.
    destruct (chat_message_step (turn_daemon t) chat_id (turn_message t)
                (turn_parameters t) w s Hs)
      as [(detail & Hf & _)|(reply' & Hf & Hs1)]; [congruence|].
    assert (reply' = reply) as -> by congruence.
    destruct (IH _ _ replies Hs1 Hrs) as [Hlen Hfin].
    split; [cbn; by rewrite Hlen|].
    rewrite Hfin. cbn. by rewrite <- !app_assoc.
Qed.

Lemma length_exchanges turns : forall replies,
  length replies = length turns ->
  length (exchanges turns replies) = 2 * length turns.
Proof.
  induction turns as [|t turns IH]; intros [|r replies] Hlen; cbn in *;
    try discriminate; [reflexivity|].
  rewrite IH by lia. lia.
Qed.

Lemma lookup_exchanges turns : forall replies i t r,
  turns !! i = Some t -> replies !! i = Some r ->
  exchanges turns replies !! (2 * i) = Some (user_turn (turn_message t)) /\
  exchanges turns replies !! (2 * i + 1) = Some (assistant_turn r).
Proof.
  induction turns as [|t0 turns IH]; intros [|r0 replies] i t r Ht Hr;
    try discriminate.
  destruct i as [|i].
  - by simplify_eq/=.
  - replace (2 * S i) with (S (S (2 * i))) by lia.
    replace (S (S (2 * i)) + 1) with (S (S (2 * i + 1))) by lia.
    exact (IH replies i t r Ht Hr).
Qed.

Lemma length_system_turns system_prompt :
  length (system_turns system_prompt) = if truthy system_prompt then 1 else 0.
Proof. unfold system_turns. by destruct (truthy system_prompt). Qed.

(** ** Shared facts about one call and about runs *)

Lemma chat_message_returned d chat_id message parameters w s reply w1 :
  chat_sessions (self w) !! chat_id = Some s ->
  chat_message d chat_id message parameters w = (Returned reply, w1) ->
  let s1 := append s (user_turn message) in
  let p := chat_post (self w) s1 parameters in
  chat_text (d p) = inr reply /\
  w1 = with_session (posted (with_session w chat_id s1) p) chat_id
         (append s1 (assistant_turn reply)).
Proof.
  intros Hs Hr s1 p. rewrite (chat_message_known _ _ _ _ _ _ Hs) in Hr.
  fold s1 p in Hr.
  destruct (chat_text (d p)) as [detail|reply']; [discriminate|].
  by injection Hr as <- <-.
Qed.

Lemma chat_payload_messages session parameters :
  parameters !! "messages" = None ->
  chat_payload session parameters !! "messages" =
    Some (json_of_messages (messages session)).
Proof.
  intros Hnone. unfold chat_payload. rewrite lookup_union_r by exact Hnone.
  by simplify_map_eq.
Qed.

Lemma lookup_merged (parameters core : gmap string json) key :
  (parameters ∪ core) !! key = merged parameters core key.
Proof.
  unfold merged. rewrite lookup_union.
  destruct (parameters !! key), (core !! key); reflexivity.
Qed.

Lemma wire_single_query d model instruction parameters w :
  wire (snd (single_query d model instruction parameters w)) =
    wire w ++ [generate_post (self w) model instruction parameters].
Proof. by rewrite single_query_eq. Qed.

Lemma wire_chat_message d chat_id message parameters w s :
  chat_sessions (self w) !! chat_id = Some s ->
  wire (snd (chat_message d chat_id message parameters w)) =
    wire w ++ [chat_post (self w) (append s (user_turn message)) parameters].
Proof.
  intros Hs. rewrite (chat_message_known _ _ _ _ _ _ Hs).
  by destruct (chat_text _).
Qed.

Lemma generate_text_fails rep :
  (exists detail, generate_text rep = inl detail) <->
  gateway_fails generate_shape_ok rep = true.
Proof.
  unfold generate_text, decoded, gateway_fails, daemon_failed.
  destruct rep as [detail|r]; cbn; [by split; eauto|].
  destruct (is_success r); cbn; [|by split; eauto].
  destruct (body r) as [detail|data]; cbn; [by split; eauto|].
  destruct data; cbn; split; eauto; try discriminate; by intros [? ?].
Qed.

Lemma chat_text_fails rep :
  (exists detail, chat_text rep = inl detail) <->
  gateway_fails chat_shape_ok rep = true.
Proof.
  unfold chat_text, decoded, gateway_fails, daemon_failed.
  destruct rep as [detail|r]; cbn; [by split; eauto|].
  destruct (is_success r); cbn; [|by split; eauto].
  destruct (body r) as [detail|data]; cbn; [by split; eauto|].
  destruct data as [| | | | | |fields]; cbn; try (split; eauto; fail).
  destruct (fields !! "message") as [m|]; cbn.
  - destruct m; cbn; split; eauto; try discriminate; by intros [? ?].
  - split; [by intros [? ?]|discriminate].
Qed.

Lemma underlying_detail_generate rep detail :
  underlying_detail rep = Some detail -> generate_text rep = inl detail.
Proof.
  unfold underlying_detail, generate_text, decoded.
  destruct rep as [?|r]; [congruence|].
  destruct (is_success r); [|congruence].
  destruct (body r); [congruence|discriminate].
Qed.

Lemma underlying_detail_chat rep detail :
  underlying_detail rep = Some detail -> chat_text rep = inl detail.
Proof.
  unfold underlying_detail, chat_text, decoded.
  destruct rep as [?|r]; [congruence|].
  destruct (is_success r); [|congruence].
  destruct (body r); [congruence|discriminate].
Qed.

Lemma fst_single_query d model instruction parameters w :
  fst (single_query d model instruction parameters w) =
    match generate_text (d (generate_post (self w) model instruction parameters)) with
    | inl detail => Raised (Exn RuntimeError ("Ollama API error: " +:+ detail))
    | inr reply => Returned reply
    end.
Proof. by rewrite single_query_eq. Qed.

Lemma fst_chat_message d chat_id message parameters w s :
  chat_sessions (self w) !! chat_id = Some s ->
  fst (chat_message d chat_id message parameters w) =
    match chat_text (d (chat_post (self w) (append s (user_turn message)) parameters)) with
    | inl detail => Raised (Exn RuntimeError ("Ollama chat API error: " +:+ detail))
    | inr reply => Returned reply
    end.
Proof.
  intros Hs. rewrite (chat_message_known _ _ _ _ _ _ Hs).
  by destruct (chat_text _).
Qed.

Lemma run_trace_cons t turns o outcomes :
  run_trace (t :: turns) (o :: outcomes) = turn_trace t o ++ run_trace turns outcomes.
Proof. reflexivity. Qed.

Lemma chat_message_trace d chat_id message parameters w s :
  chat_sessions (self w) !! chat_id = Some s ->
  let r := chat_message d chat_id message parameters w in
  chat_sessions (self (snd r)) !! chat_id =
    Some {| model := model s;
            messages := messages s ++
              match fst r with
              | Returned reply => [user_turn message; assistant_turn reply]
              | Raised _ => [user_turn message]
              end |} /\
  match fst r with
  | Returned _ => True
  | Raised e => GatewayError e
  end.
Proof.
  intros Hs r. subst r. rewrite (chat_message_known _ _ _ _ _ _ Hs).
  destruct (chat_text _) as [detail|reply]; cbn; rewrite lookup_insert_eq;
    (split; [|reflexivity]); unfold append; cbn; by rewrite <- ?app_assoc.
Qed.

Lemma chat_message_post d chat_id message parameters w s :
  chat_sessions (self w) !! chat_id = Some s ->
  let w1 := snd (chat_message d chat_id message parameters w) in
  wire w1 = wire w ++ [chat_post (self w) (append s (user_turn message)) parameters] /\
  base_url (self w1) = base_url (self w).
Proof.
  intros Hs w1. subst w1. rewrite (chat_message_known _ _ _ _ _ _ Hs).
  by destruct (chat_text _).
Qed.

Lemma chat_messages_wire chat_id turns : forall w s,
  chat_sessions (self w) !! chat_id = Some s ->
  exists posts,
    wire (snd (chat_messages chat_id turns w)) = wire w ++ posts /\
    length posts = length turns.
Proof.
  induction turns as [|t turns IH]; intros w s Hs.
  - exists []. cbn. by rewrite app_nil_r.
  - rewrite chat_messages_cons. cbn [snd].
    destruct (chat_message_trace (turn_daemon t) chat_id (turn_message t)
                (turn_parameters t) w s Hs) as [Hs1 _].
    destruct (chat_message_post (turn_daemon t) chat_id (turn_message t)
                (turn_parameters t) w s Hs) as [Hw _].
    destruct (IH _ _ Hs1) as (posts & Hposts & Hlen).
    eexists (_ :: posts). rewrite Hposts, Hw, <- app_assoc.
    split; [reflexivity|]. cbn. by rewrite Hlen.
Qed.

Lemma chat_message_reply d chat_id message parameters w s reply :
  chat_sessions (self w) !! chat_id = Some s ->
  fst (chat_message d chat_id message parameters w) = Returned reply ->
  chat_text (d (chat_post (self w) (append s (user_turn message)) parameters)) =
    inr reply.
Proof.
  intros Hs Hr. rewrite (fst_chat_message _ _ _ _ _ _ Hs) in Hr.
  destruct (chat_text _); congruence.
Qed.

(** In a run whose calls all returned, the reply of the call at position
    [i] is what that call's daemon answered to the request issued for it. *)
Lemma chat_messages_replies chat_id turns : forall w s (replies : list json),
  chat_sessions (self w) !! chat_id = Some s ->
  fst (chat_messages chat_id turns w) = Returned <$> replies ->
  forall i t reply,
    turns !! i = Some t -> replies !! i = Some reply ->
    exists p,
      wire (snd (chat_messages chat_id turns w)) !! (length (wire w) + i) = Some p /\
      url p = base_url (self w) +:+ "/api/chat" /\
      chat_text (turn_daemon t p) = inr reply.
Proof.
  induction turns as [|t0 turns IH]; intros w s replies Hs Hall i t reply Ht Hr;
    [discriminate|].
  rewrite chat_messages_cons in Hall |- *. cbn [fst snd] in Hall |- *.
  destruct replies as [|reply0 replies]; [discriminate|].
  rewrite fmap_cons in Hall. injection Hall as Hr0 Hrs.
  pose proof (chat_message_reply _ _ _ _ _ _ _ Hs Hr0) as Htext.
  destruct (chat_message_trace (turn_daemon t0) chat_id (turn_message t0)
              (turn_parameters t0) w s Hs) as [Hs1 _].
  destruct (chat_message_post (turn_daemon t0) chat_id (turn_message t0)
              (turn_parameters t0) w s Hs) as [Hw Hbase].
  destruct (chat_messages_wire chat_id turns _ _ Hs1) as (posts & Hposts & _).
  destruct i as [|i].
  - injection Ht as ->. injection Hr as ->.
    eexists. rewrite Hposts, Hw, <- app_assoc, Nat.add_0_r.
    rewrite lookup_app_r, Nat.sub_diag by lia.
    split; [reflexivity|]. split; [reflexivity|exact Htext].
  - destruct (IH _ _ replies Hs1 Hrs i t reply Ht Hr) as (p & Hp & Hurl & Hp').
    exists p. rewrite Hw, length_app in Hp. cbn [length] in Hp.
    replace (length (wire w) + S i) with (length (wire w) + 1 + i) by lia.
    split; [exact Hp|]. split; [by rewrite <- Hbase|exact Hp'].
Qed.

(** ** Transcript growth *)

(** C1: on a session just created, after N calls of [chat_message] that all
    returned, the transcript is the optional system turn followed by the N
    pairs (user turn with the caller's message, assistant turn with that
    call's reply) in call order; its length is (1 if a system turn was
    created, else 0) + 2*N.  The reply of each call is the gateway's: the
    request of the call at position [i] is the [i]-th one issued since
    creation, it went to the chat endpoint, and the text of what that call's
    daemon answers to it is the content of the assistant turn. *)
Theorem successful_turns_transcript w0 chat_id model system_prompt turns
    (replies : list json) :
  let w1 := snd (init_chat chat_id model system_prompt w0) in
  let w2 := snd (chat_messages chat_id turns w1) in
  let k := if truthy system_prompt then 1 else 0 in
  fst (chat_messages chat_id turns w1) = Returned <$> replies ->
  exists ts,
    transcript w2 chat_id = Some ts /\
    ts = system_turns system_prompt ++ exchanges turns replies /\
    length ts = k + 2 * length turns /\
    forall i t r,
      turns !! i = Some t -> replies !! i = Some r ->
      ts !! (k + 2 * i) = Some (user_turn (turn_message t)) /\
      ts !! (k + 2 * i + 1) = Some (assistant_turn r) /\
      exists p,
        wire w2 !! (length (wire w0) + i) = Some p /\
        url p = base_url (self w0) +:+ "/api/chat" /\
        chat_text (turn_daemon t p) = inr r.
Proof.
  intros w1 w2 k Hall. subst w1 w2.
  rewrite init_chat_eq in Hall |- *. cbn [snd] in Hall |- *.
  set (s0 := {| model := model; messages := system_turns system_prompt |}) in *.
  assert (chat_sessions (self (with_session w0 chat_id s0)) !! chat_id = Some s0)
    as Hs0 by (cbn; by rewrite lookup_insert_eq).
  destruct (chat_messages_all_returned _ _ _ _ _ Hs0 Hall) as [Hlen Hfin].
  exists (system_turns system_prompt ++ exchanges turns replies).
  split; [|split; [reflexivity|split]].
  - unfold transcript. by rewrite Hfin.
  - rewrite length_app, length_system_turns, length_exchanges by done. reflexivity.
  - intros i t r Ht Hr.
    destruct (lookup_exchanges _ _ _ _ _ Ht Hr) as [Hu Ha].
    split; [|split].
    + subst k. rewrite <- (length_system_turns system_prompt).
      rewrite lookup_app_r by lia.
      by replace (length (system_turns system_prompt) + 2 * i
                  - length (system_turns system_prompt)) with (2 * i) by lia.
    + subst k. rewrite <- (length_system_turns system_prompt).
      rewrite <- Nat.add_assoc, lookup_app_r by lia.
      by replace (length (system_turns system_prompt) + (2 * i + 1)
                  - length (system_turns system_prompt)) with (2 * i + 1) by lia.
    + exact (chat_messages_replies chat_id turns _ _ replies Hs0 Hall i t r Ht Hr).
Qed.

(** Scenario A of the spec: one turn on a session created without a
    prompt, the daemon answering "hello"; the assistant turn holds the text
    of the answer to the one request issued. *)
Lemma successful_turns_transcript_scenario_A :
  let d := answering (chat_body "hello") in
  let turns := [ {| turn_message := "hi"; turn_parameters := ∅;
                    turn_daemon := d |} ] in
  let w2 := snd (chat_messages "X" turns (snd (init_chat "X" "m" None fresh_world))) in
  (exists ts,
     transcript w2 "X" = Some ts /\
     ts = [user_turn "hi"; assistant_turn (JStr "hello")]) /\
  (exists p,
     wire w2 = [p] /\
     chat_text (d p) = inr (JStr "hello")).
Proof.
  intros d turns w2.
  destruct (successful_turns_transcript fresh_world "X" "m" None turns [JStr "hello"])
    as (ts & Hts & Heq & _ & Hturn).
  - vm_compute. reflexivity.
  - split; [exists ts; split; [exact Hts | exact Heq]|].
    destruct (Hturn 0 {| turn_message := "hi"; turn_parameters := ∅;
                         turn_daemon := d |} (JStr "hello") eq_refl eq_refl)
      as (_ & _ & p & Hp & _ & Htext).
    exists p. split; [|exact Htext].
    fold w2 in Hp. revert Hp. vm_compute. by intros [= <-].
Defined.

(** Whatever the outcomes of the calls, a run on a stored session only
    appends user and assistant turns and keeps the bound model. *)
Lemma chat_messages_appends chat_id turns : forall w s,
  chat_sessions (self w) !! chat_id = Some s ->
  exists added,
    chat_sessions (self (snd (chat_messages chat_id turns w))) !! chat_id =
      Some {| model := model s; messages := messages s ++ added |} /\
    Forall (fun m => role m = "user" \/ role m = "assistant") added.
Proof.
  induction turns as [|t turns IH]; intros w s Hs.
  - exists []. cbn. rewrite Hs, app_nil_r. split; [by destruct s | constructor].
  - rewrite chat_messages_cons. cbn [fst snd].
    destruct (chat_message_step (turn_daemon t) chat_id (turn_message t)
                (turn_parameters t) w s Hs)
      as [(detail & _ & Hs1)|(reply & _ & Hs1)];
      destruct (IH _ _ Hs1) as (added & Hfin & Hroles); rewrite Hfin; cbn.
    + exists (user_turn (turn_message t) :: added).
      split; [by rewrite <- app_assoc|]. constructor; [by left | exact Hroles].
    + exists (user_turn (turn_message t) :: assistant_turn reply :: added).
      split; [by rewrite <- !app_assoc|].
      constructor; [by left|]. constructor; [by right | exact Hroles].
Qed.

Lemma system_count_app ts1 ts2 :
  system_count (ts1 ++ ts2) = system_count ts1 + system_count ts2.
Proof. unfold system_count. by rewrite filter_app, length_app. Qed.

Lemma system_count_none added :
  Forall (fun m => role m <> "system") added -> system_count added = 0.
Proof.
  unfold system_count. induction 1 as [|m ms Hm _ IH]; [reflexivity|].
  rewrite filter_cons_False by exact Hm. exact IH.
Qed.

(** ** The system turn *)

(** C5: after [init_chat] and any run of [chat_message] calls on the
    session, returned or failed, the transcript is what creation put there
    followed by turns none of which has role system; so it holds at most one
    system turn, only at index 0, and none is inserted after creation. *)
Theorem system_turn_only_from_creation w0 chat_id model system_prompt turns :
  let w1 := snd (init_chat chat_id model system_prompt w0) in
  let w2 := snd (chat_messages chat_id turns w1) in
  exists added,
    transcript w2 chat_id = Some (system_turns system_prompt ++ added) /\
    Forall (fun m => role m <> "system") added /\
    system_count (system_turns system_prompt ++ added) =
      system_count (system_turns system_prompt) /\
    system_count (system_turns system_prompt ++ added) <= 1 /\
    forall i m,
      (system_turns system_prompt ++ added) !! i = Some m ->
      role m = "system" -> i = 0.
Proof.
  intros w1 w2. subst w1 w2. rewrite init_chat_eq. cbn [snd].
  set (s0 := {| model := model; messages := system_turns system_prompt |}).
  assert (chat_sessions (self (with_session w0 chat_id s0)) !! chat_id = Some s0)
    as Hs0 by (cbn; by rewrite lookup_insert_eq).
  destruct (chat_messages_appends chat_id turns _ _ Hs0) as (added & Hfin & Hroles).
  assert (Forall (fun m => role m <> "system") added) as Hnot.
  { eapply Forall_impl; [exact Hroles|]. intros m [-> | ->]; discriminate. }
  exists added. split; [|split; [exact Hnot|]].
  { unfold transcript. by rewrite Hfin. }
  rewrite system_count_app, (system_count_none _ Hnot), Nat.add_0_r.
  split; [reflexivity|]. split.
  - unfold system_turns, system_count.
    destruct (truthy system_prompt); [|cbn; lia].
    rewrite filter_cons_True by reflexivity. cbn. lia.
  - intros i m Hi Hm.
    destruct (decide (i < length (system_turns system_prompt))) as [Hlt|Hge].
    + rewrite length_system_turns in Hlt. destruct (truthy system_prompt); lia.
    + rewrite lookup_app_r in Hi by lia.
      apply list_elem_of_lookup_2 in Hi.
      rewrite Forall_forall in Hnot. by destruct (Hnot _ Hi).
Qed.

(** ** A failed turn *)

(** C2 (amended): on a stored session, when the gateway call of
    [chat_message] fails (no response, a status outside 2xx, a body that
    does not decode or has not the shape the extraction needs), the
    operation raises the gateway error and the table differs only in that
    the session's transcript has the new user turn at its end, with no
    assistant turn; a later call whose parameters have no key [messages]
    posts the whole transcript with that unanswered user turn in it, and
    when it returns the transcript holds both user turns and then the
    reply. *)
Theorem failed_turn_leaves_user_turn d chat_id message parameters w s :
  chat_sessions (self w) !! chat_id = Some s ->
  gateway_fails chat_shape_ok
    (d (chat_post (self w) (append s (user_turn message)) parameters)) = true ->
  exists e w1,
    chat_message d chat_id message parameters w = (Raised e, w1) /\
    GatewayError e /\
    chat_sessions (self w1) =
      <[chat_id := append s (user_turn message)]> (chat_sessions (self w)) /\
    transcript w1 chat_id = Some (messages s ++ [user_turn message]) /\
    forall d2 message2 parameters2,
      parameters2 !! "messages" = None ->
      (exists p,
         wire (snd (chat_message d2 chat_id message2 parameters2 w1)) =
           wire w1 ++ [p] /\
         payload p !! "messages" =
           Some (json_of_messages
                   (messages s ++ [user_turn message; user_turn message2]))) /\
      forall reply w2,
        chat_message d2 chat_id message2 parameters2 w1 = (Returned reply, w2) ->
        exists p,
          last (wire w2) = Some p /\
          payload p !! "messages" =
            Some (json_of_messages
                    (messages s ++ [user_turn message; user_turn message2])) /\
          transcript w2 chat_id =
            Some (messages s ++
                  [user_turn message; user_turn message2; assistant_turn reply]).
Proof.
  intros Hs Hfail.
  apply chat_text_fails in Hfail. destruct Hfail as [detail Hdetail].
  set (s1 := append s (user_turn message)) in *.
  exists (Exn RuntimeError ("Ollama chat API error: " +:+ detail)),
         (posted (with_session w chat_id s1) (chat_post (self w) s1 parameters)).
  split.
  { rewrite (chat_message_known _ _ _ _ _ _ Hs). fold s1. by rewrite Hdetail. }
  split; [reflexivity|]. split; [reflexivity|].
  split; [unfold transcript; cbn; by rewrite lookup_insert_eq|].
  intros d2 message2 parameters2 Hfree.
  assert (chat_sessions
            (self (posted (with_session w chat_id s1)
                     (chat_post (self w) s1 parameters))) !! chat_id = Some s1)
    as Hs1 by (cbn; by rewrite lookup_insert_eq).
  assert (chat_payload (append s1 (user_turn message2)) parameters2 !! "messages" =
            Some (json_of_messages
                    (messages s ++ [user_turn message; user_turn message2])))
    as Hpay.
  { rewrite chat_payload_messages by exact Hfree. cbn. by rewrite <- app_assoc. }
  split.
  - eexists. split; [by apply wire_chat_message|exact Hpay].
  - intros reply w2 Hr2.
    destruct (chat_message_returned _ _ _ _ _ _ _ _ Hs1 Hr2) as [_ ->].
    eexists. split; [cbn; apply last_snoc|]. split; [exact Hpay|].
    rewrite transcript_with_session. cbn. by rewrite <- !app_assoc.
Qed.

(** Scenario C of the spec: the daemon is unreachable during the first
    turn, which raises, and answers the second. *)
Lemma failed_turn_scenario_C :
  let w := snd (init_chat "X" "m" None fresh_world) in
  let r1 := chat_message unreachable "X" "hi" ∅ w in
  let r2 := chat_message (answering (chat_body "hello")) "X" "again" ∅ (snd r1) in
  (exists e, fst r1 = Raised e /\ GatewayError e) /\
  transcript (snd r1) "X" = Some [user_turn "hi"] /\
  exists p,
    wire (snd r2) = wire (snd r1) ++ [p] /\
    payload p !! "messages" =
      Some (json_of_messages [user_turn "hi"; user_turn "again"]).
Proof.
  intros w r1 r2.
  destruct (failed_turn_leaves_user_turn unreachable "X" "hi" ∅ w
              {| model := "m"; messages := [] |})
    as (e & w1 & Hr1 & He & _ & Hts & Hnext).
  - vm_compute. reflexivity.
  - reflexivity.
  - subst r2 r1. rewrite Hr1. cbn [fst snd].
    split; [by exists e|]. split; [exact Hts|].
    destruct (Hnext (answering (chat_body "hello")) "again" ∅)
      as [(p & Hwire & Hpay) _]; [reflexivity|].
    exists p. split; [exact Hwire | exact Hpay].
Defined.

(** C2 as stated fails: after a failed turn, a returning call whose
    parameters carry a key [messages] posts that value, not the transcript. *)
Lemma retry_posts_shadowed_messages :
  let w := snd (init_chat "X" "m" None fresh_world) in
  let r1 := chat_message unreachable "X" "hi" ∅ w in
  let r2 := chat_message (answering (chat_body "hello")) "X" "again"
              {[ "messages" := JArr [] ]} (snd r1) in
  (exists e, fst r1 = Raised e /\ GatewayError e) /\
  transcript (snd r1) "X" = Some [user_turn "hi"] /\
  fst r2 = Returned (JStr "hello") /\
  exists p,
    last (wire (snd r2)) = Some p /\
    payload p !! "messages" = Some (JArr []) /\
    payload p !! "messages" <>
      Some (json_of_messages [user_turn "hi"; user_turn "again"]).
Proof.
  cbv zeta. split; [eexists; split; vm_compute; reflexivity|].
  split; [vm_compute; reflexivity|].
  split; [vm_compute; reflexivity|].
  eexists. split; [vm_compute; reflexivity|].
  split; [vm_compute; reflexivity|].
  vm_compute. discriminate.
Qed.

(** ** The wire payload *)

(** C3 (amended): either operation posts one request, whose payload is the
    core's three fields overwritten by the caller's parameters: every key of
    [parameters] carries the caller's value, [model], [prompt]/[messages]
    and [stream] included, and a core field carries the core's value only
    when [parameters] has no such key.  This holds for every call of
    [single_query], on any client, and for every call of [chat_message] on a
    stored session. *)
Theorem parameters_shadow_core_fields d query_model instruction parameters w :
  (exists p,
     wire (snd (single_query d query_model instruction parameters w)) = wire w ++ [p] /\
     (forall key, payload p !! key =
                  merged parameters (generate_core query_model instruction) key) /\
     (forall key v, parameters !! key = Some v -> payload p !! key = Some v) /\
     (parameters !! "model" = None -> payload p !! "model" = Some (JStr query_model)) /\
     (parameters !! "prompt" = None ->
      payload p !! "prompt" = Some (JStr instruction)) /\
     (parameters !! "stream" = None ->
      payload p !! "stream" = Some (JBool false))) /\
  (forall chat_id message s,
     chat_sessions (self w) !! chat_id = Some s ->
     exists p,
       wire (snd (chat_message d chat_id message parameters w)) = wire w ++ [p] /\
       (forall key, payload p !! key =
                    merged parameters (chat_core (append s (user_turn message))) key) /\
       (forall key v, parameters !! key = Some v -> payload p !! key = Some v) /\
       (parameters !! "model" = None ->
        payload p !! "model" = Some (JStr (model s))) /\
       (parameters !! "messages" = None ->
        payload p !! "messages" =
          Some (json_of_messages (messages s ++ [user_turn message]))) /\
       (parameters !! "stream" = None ->
        payload p !! "stream" = Some (JBool false))).
Proof.
  split.
  - exists (generate_post (self w) query_model instruction parameters).
    split; [apply wire_single_query|].
    cbn [payload generate_post]. unfold generate_payload.
    fold (generate_core query_model instruction).
    split; [intros key; apply lookup_merged|].
    split; [intros key v Hk; by rewrite lookup_merged; unfold merged; rewrite Hk|].
    repeat split; intros Hnone; rewrite lookup_merged; unfold merged;
      rewrite Hnone; reflexivity.
  - intros chat_id message s Hs.
    exists (chat_post (self w) (append s (user_turn message)) parameters).
    split; [by apply wire_chat_message|].
    cbn [payload chat_post]. unfold chat_payload.
    fold (chat_core (append s (user_turn message))).
    split; [intros key; apply lookup_merged|].
    split; [intros key v Hk; by rewrite lookup_merged; unfold merged; rewrite Hk|].
    repeat split; intros Hnone; rewrite lookup_merged; unfold merged;
      rewrite Hnone; reflexivity.
Qed.

(** Scenario D's query on a client without sessions, and Scenario A's turn,
    with a temperature as the only parameter: the three core fields carry
    the core's values. *)
Lemma parameters_shadow_core_fields_temperature :
  let w := snd (init_chat "X" "m" None fresh_world) in
  let parameters : gmap string json := {[ "temperature" := JFloat "0.7" ]} in
  (exists p,
     wire (snd (single_query (answering (generate_body "4")) "m" "2+2?"
                  parameters fresh_world)) = [p] /\
     carries_core_fields p "m" "prompt" (JStr "2+2?") /\
     payload p !! "temperature" = Some (JFloat "0.7")) /\
  (exists p,
     wire (snd (chat_message (answering (chat_body "hello")) "X" "hi"
                  parameters w)) = [p] /\
     carries_core_fields p "m" "messages" (json_of_messages [user_turn "hi"]) /\
     payload p !! "temperature" = Some (JFloat "0.7")).
Proof.
  intros w parameters.
  destruct (parameters_shadow_core_fields
              (answering (generate_body "4")) "m" "2+2?" parameters fresh_world)
    as [(p & Hw & _ & Hp & Hm & Hi & Hst) _].
  destruct (parameters_shadow_core_fields
              (answering (chat_body "hello")) "m" "2+2?" parameters w)
    as [_ Hchat].
  destruct (Hchat "X" "hi" {| model := "m"; messages := [] |})
    as (q & Hw' & _ & Hq & Hm' & Hi' & Hst'); [vm_compute; reflexivity|].
  split.
  - exists p. split; [exact Hw|]. split.
    + split; [apply Hm; reflexivity|]. split; [apply Hi|apply Hst]; reflexivity.
    + apply Hp. reflexivity.
  - exists q. split; [exact Hw'|]. split.
    + split; [apply Hm'; reflexivity|]. split; [apply Hi'|apply Hst']; reflexivity.
    + apply Hq. reflexivity.
Defined.

(** C3 as stated fails: with [model], [prompt] and [stream] among the
    parameters, the request posted carries the caller's three values. *)
Lemma single_query_core_fields_shadowed :
  let parameters : gmap string json :=
    {[ "model" := JStr "other"; "prompt" := JStr "ignored"; "stream" := JBool true ]} in
  exists p,
    wire (snd (single_query (answering (generate_body "4")) "m" "2+2?"
                 parameters fresh_world)) = [p] /\
    payload p !! "model" = Some (JStr "other") /\
    payload p !! "prompt" = Some (JStr "ignored") /\
    payload p !! "stream" = Some (JBool true) /\
    ~ carries_core_fields p "m" "prompt" (JStr "2+2?").
Proof.
  cbv zeta. eexists. split; [vm_compute; reflexivity|].
  split; [vm_compute; reflexivity|].
  split; [vm_compute; reflexivity|].
  split; [vm_compute; reflexivity|].
  intros (Hm & _). vm_compute in Hm. discriminate.
Qed.

(** ** The model bound to a session *)

Lemma truthy_nonempty chat_id : chat_id <> "" -> truthy (Some chat_id) = true.
Proof. by destruct chat_id. Qed.

(** The route on a request that names a session: the turn is made with the
    request's id, instruction and parameters, and its outcome answered. *)
Lemma process_in_session validation_text d req chat_id w :
  main.chat_id req = Some chat_id -> chat_id <> "" ->
  main.process validation_text d req w =
    let r := chat_message d chat_id (main.instruction req) (main.parameters req) w in
    (Returned (process_response validation_text (Some chat_id) (fst r)), snd r).
Proof.
  intros Hid Hne. unfold main.process, try_except, bind.
  rewrite Hid, (truthy_nonempty _ Hne). cbn [default].
  destruct (chat_message _ _ _ _ w) as [[v|e] w1]; [|reflexivity].
  by destruct v.
Qed.

Lemma process_stateless validation_text d req w :
  truthy (main.chat_id req) = false ->
  main.process validation_text d req w =
    let r := single_query d (main.model req) (main.instruction req)
               (main.parameters req) w in
    (Returned (process_response validation_text (main.chat_id req) (fst r)), snd r).
Proof.
  intros Hfalsy. unfold main.process, try_except, bind. rewrite Hfalsy.
  destruct (single_query _ _ _ _ w) as [[v|e] w1]; [|reflexivity].
  by destruct v.
Qed.

Lemma truthy_cases (o : option string) :
  truthy o = false \/ exists chat_id, o = Some chat_id /\ chat_id <> "".
Proof.
  destruct o as [[|a rest]|]; [by left| |by left].
  right. by eexists.
Qed.

Lemma bound_model_chat_message d chat_id message parameters w s :
  chat_sessions (self w) !! chat_id = Some s ->
  bound_model (snd (chat_message d chat_id message parameters w)) chat_id =
    Some (model s).
Proof.
  intros Hs. unfold bound_model.
  destruct (chat_message_step d chat_id message parameters w s Hs)
    as [(detail & _ & ->)|(reply & _ & ->)]; reflexivity.
Qed.

Lemma chat_message_posts_bound_model d chat_id message parameters w s :
  chat_sessions (self w) !! chat_id = Some s ->
  exists p,
    wire (snd (chat_message d chat_id message parameters w)) = wire w ++ [p] /\
    (parameters !! "model" = None -> payload p !! "model" = Some (JStr (model s))).
Proof.
  intros Hs. eexists. split; [by apply wire_chat_message|].
  intros Hnone. cbn [payload chat_post]. unfold chat_payload.
  rewrite lookup_union_r by exact Hnone. by simplify_map_eq.
Qed.

(** C4 (amended): on every stored session, whatever its id, a turn leaves
    the session's bound model as it was, as does any run of turns, and the
    payload posted carries the bound model whenever the turn's parameters
    have no key [model].  For a turn that comes through [/process], the
    request's own [model] field has no effect on what the route does. *)
Theorem session_model_fixed chat_id w s :
  chat_sessions (self w) !! chat_id = Some s ->
  (forall d message parameters,
     bound_model (snd (chat_message d chat_id message parameters w)) chat_id =
       Some (model s)) /\
  (forall turns,
     bound_model (snd (chat_messages chat_id turns w)) chat_id = Some (model s)) /\
  (forall d message parameters,
     parameters !! "model" = None ->
     exists p,
       last (wire (snd (chat_message d chat_id message parameters w))) = Some p /\
       payload p !! "model" = Some (JStr (model s))) /\
  (forall validation_text d req,
     main.chat_id req = Some chat_id -> chat_id <> "" ->
     bound_model (snd (main.process validation_text d req w)) chat_id =
       Some (model s) /\
     (forall other,
        main.process validation_text d (with_model req other) w =
          main.process validation_text d req w) /\
     (main.parameters req !! "model" = None ->
      exists p,
        last (wire (snd (main.process validation_text d req w))) = Some p /\
        payload p !! "model" = Some (JStr (model s)))).
Proof.
  intros Hs.
  assert (forall d message parameters,
            parameters !! "model" = None ->
            exists p,
              last (wire (snd (chat_message d chat_id message parameters w))) =
                Some p /\
              payload p !! "model" = Some (JStr (model s))) as Hposted.
  { intros d message parameters Hfree.
    destruct (chat_message_posts_bound_model d chat_id message parameters w s Hs)
      as (p & Hw & Hp).
    exists p. split; [by rewrite Hw, last_snoc|]. by apply Hp. }
  split; [intros d message parameters; by apply bound_model_chat_message|].
  split.
  { intros turns. unfold bound_model.
    destruct (chat_messages_appends chat_id turns w s Hs) as (added & -> & _).
    reflexivity. }
  split; [exact Hposted|].
  intros validation_text d req Hid Hne.
  rewrite (process_in_session _ _ _ _ _ Hid Hne). cbn [snd].
  split; [by apply bound_model_chat_message|].
  split; [|apply Hposted].
  intros other.
  by rewrite (process_in_session validation_text d (with_model req other) chat_id w).
Qed.

(** A turn on a session bound to [m], asked with another model in the
    request body: the bound model is the one posted.  And a turn on a
    session stored under the empty id keeps its model. *)
Lemma session_model_fixed_other_request_model :
  let w := snd (init_chat "X" "m" None fresh_world) in
  let r := main.process string_type_error (answering (chat_body "hello"))
             (turn_request "llama2" ∅) w in
  let w' := snd (init_chat "" "m" None fresh_world) in
  bound_model (snd r) "X" = Some "m" /\
  (exists p, last (wire (snd r)) = Some p /\ payload p !! "model" = Some (JStr "m")) /\
  bound_model (snd (chat_message unreachable "" "hi" ∅ w')) "" = Some "m".
Proof.
  intros w r w'.
  destruct (session_model_fixed "X" w {| model := "m"; messages := [] |})
    as (_ & _ & _ & Hroute); [vm_compute; reflexivity|].
  destruct (Hroute string_type_error (answering (chat_body "hello"))
              (turn_request "llama2" ∅)) as (Hbound & _ & Hposted).
  - reflexivity.
  - discriminate.
  - split; [exact Hbound|]. split; [apply Hposted; reflexivity|].
    destruct (session_model_fixed "" w' {| model := "m"; messages := [] |})
      as (Hturn & _); [vm_compute; reflexivity|].
    apply Hturn.
Defined.

(** C4 as stated fails: a turn whose parameters carry a key [model] posts
    that value as the payload's model, not the model bound at creation. *)
Lemma session_turn_posts_parameter_model :
  let w := snd (init_chat "X" "m" None fresh_world) in
  let r := main.process string_type_error (answering (chat_body "hello"))
             (turn_request "m" {[ "model" := JStr "other" ]}) w in
  bound_model w "X" = Some "m" /\
  bound_model (snd r) "X" = Some "m" /\
  exists p,
    last (wire (snd r)) = Some p /\
    payload p !! "model" = Some (JStr "other") /\
    payload p !! "model" <> Some (JStr "m").
Proof.
  cbv zeta. split; [vm_compute; reflexivity|].
  split; [vm_compute; reflexivity|].
  eexists. split; [vm_compute; reflexivity|].
  split; [vm_compute; reflexivity|].
  vm_compute. discriminate.
Qed.

(** ** Gateway failures *)

(** C6 (amended): [single_query], on any client, and [chat_message] on a
    stored session, raise exactly when the daemon call fails (no response or
    timeout, a status outside 2xx, a body that does not decode) or the
    decoded body has not the shape the extraction needs (it is not a JSON
    object; for chat, its [message] field is there and is not a JSON
    object).  What is raised is always the gateway error; after a daemon
    failure its text is the operation's prefix followed by the transport,
    status or decoding detail.  Otherwise the operation returns the value of
    [response], resp. of [message.content], or the empty string when that
    field is absent. *)
Theorem gateway_error_exactly d parameters w :
  (forall query_model instruction,
     let rg := d (generate_post (self w) query_model instruction parameters) in
     let og := fst (single_query d query_model instruction parameters w) in
     ((exists e, og = Raised e) <-> gateway_fails generate_shape_ok rg = true) /\
     (forall e, og = Raised e -> GatewayError e) /\
     (forall detail, underlying_detail rg = Some detail ->
        og = Raised (Exn RuntimeError ("Ollama API error: " +:+ detail))) /\
     (forall r fields,
        rg = Answered r -> is_success r = true -> body r = Decoded (JObj fields) ->
        og = Returned (default (JStr "") (fields !! "response")))) /\
  (forall chat_id message s,
     chat_sessions (self w) !! chat_id = Some s ->
     let rc := d (chat_post (self w) (append s (user_turn message)) parameters) in
     let oc := fst (chat_message d chat_id message parameters w) in
     ((exists e, oc = Raised e) <-> gateway_fails chat_shape_ok rc = true) /\
     (forall e, oc = Raised e -> GatewayError e) /\
     (forall detail, underlying_detail rc = Some detail ->
        oc = Raised (Exn RuntimeError ("Ollama chat API error: " +:+ detail))) /\
     (forall r fields,
        rc = Answered r -> is_success r = true -> body r = Decoded (JObj fields) ->
        match fields !! "message" with
        | None => oc = Returned (JStr "")
        | Some (JObj m) => oc = Returned (default (JStr "") (m !! "content"))
        | Some _ => exists e, oc = Raised e
        end)).
Proof.
  split.
  - intros query_model instruction rg og. subst og.
    rewrite fst_single_query. fold rg.
    split; [|split; [|split]].
    + rewrite <- generate_text_fails.
      destruct (generate_text rg) as [detail|v]; split; eauto;
        intros [? ?]; discriminate.
    + intros e He.
      destruct (generate_text rg); [|discriminate]. by injection He as <-.
    + intros detail Hd. by rewrite (underlying_detail_generate _ _ Hd).
    + intros r fields Hr Hok Hbody.
      unfold generate_text, decoded. by rewrite Hr, Hok, Hbody.
  - intros chat_id message s Hs rc oc. subst oc.
    rewrite (fst_chat_message _ _ _ _ _ _ Hs). fold rc.
    split; [|split; [|split]].
    + rewrite <- chat_text_fails.
      destruct (chat_text rc) as [detail|v]; split; eauto;
        intros [? ?]; discriminate.
    + intros e He.
      destruct (chat_text rc); [|discriminate]. by injection He as <-.
    + intros detail Hd. by rewrite (underlying_detail_chat _ _ Hd).
    + intros r fields Hr Hok Hbody.
      unfold chat_text, decoded. rewrite Hr, Hok, Hbody. cbn.
      destruct (fields !! "message") as [m|]; cbn; [|reflexivity].
      destruct m; cbn; eauto.
Qed.

(** Scenario D's query answered, on a client without sessions, and
    Scenario C's turn with the daemon unreachable. *)
Lemma gateway_error_exactly_scenarios :
  let w := snd (init_chat "X" "m" None fresh_world) in
  fst (single_query (answering (generate_body "4")) "m" "2+2?" ∅ fresh_world) =
    Returned (JStr "4") /\
  fst (chat_message unreachable "X" "hi" ∅ w) =
    Raised (Exn RuntimeError
              "Ollama chat API error: All connection attempts failed").
Proof.
  intros w. split.
  - destruct (gateway_error_exactly (answering (generate_body "4")) ∅ fresh_world)
      as [Hquery _].
    destruct (Hquery "m" "2+2?") as (_ & _ & _ & Hret).
    rewrite (Hret {| status_code := 200; status_detail := "";
                     body := Decoded (generate_body "4") |}
                  {[ "response" := JStr "4" ]}) by reflexivity.
    vm_compute. reflexivity.
  - destruct (gateway_error_exactly unreachable ∅ w) as [_ Hchat].
    destruct (Hchat "X" "hi" {| model := "m"; messages := [] |})
      as (_ & _ & Hdet & _); [vm_compute; reflexivity|].
    apply (Hdet "All connection attempts failed"). reflexivity.
Defined.

(** C6 as stated fails: on a 2xx answer whose body decodes, the operation
    still raises the gateway error when the decoded value has no [get]
    (a JSON array for generate, a string under [message] for chat), and then
    the error text is that of the attribute error. *)
Lemma decoded_body_still_raises :
  let generate_daemon := answering (JArr []) in
  let chat_daemon := answering (JObj {[ "message" := JStr "hello" ]}) in
  let w := snd (init_chat "X" "m" None fresh_world) in
  let pg := generate_post (self w) "m" "2+2?" ∅ in
  let pc := chat_post (self w) (append {| model := "m"; messages := [] |}
                                  (user_turn "hi")) ∅ in
  daemon_failed (generate_daemon pg) = false /\
  fst (single_query generate_daemon "m" "2+2?" ∅ w) =
    Raised (Exn RuntimeError
              "Ollama API error: 'list' object has no attribute 'get'") /\
  daemon_failed (chat_daemon pc) = false /\
  fst (chat_message chat_daemon "X" "hi" ∅ w) =
    Raised (Exn RuntimeError
              "Ollama chat API error: 'str' object has no attribute 'get'").
Proof. cbv zeta. repeat split; vm_compute; reflexivity. Qed.

(** ** Closing a session *)

(** C7: once a created session is closed, its id has no entry, and
    [chat_message] on it raises the session-not-found error and changes
    nothing, which is what it does on any id without an entry; when the id
    had no entry before creation, the state after create-then-close is the
    state before. *)
Theorem closed_session_is_unknown d chat_id model system_prompt message
    parameters w :
  let w1 := snd (init_chat chat_id model system_prompt w) in
  let w2 := snd (cleanup_chat chat_id w1) in
  let not_found := Exn ValueError ("Chat session " +:+ chat_id +:+ " not found") in
  is_Some (chat_sessions (self w1) !! chat_id) /\
  chat_sessions (self w2) !! chat_id = None /\
  chat_message d chat_id message parameters w2 = (Raised not_found, w2) /\
  SessionNotFound not_found /\
  (forall w',
     chat_sessions (self w') !! chat_id = None ->
     chat_message d chat_id message parameters w' = (Raised not_found, w')) /\
  (chat_sessions (self w) !! chat_id = None -> w2 = w).
Proof.
  intros w1 w2 not_found. subst w1 w2.
  rewrite init_chat_eq. cbn [snd]. rewrite cleanup_chat_eq. cbn [snd].
  split; [cbn; rewrite lookup_insert_eq; by eexists|].
  split; [cbn; apply lookup_delete_eq|].
  split; [apply chat_message_unknown; cbn; apply lookup_delete_eq|].
  split; [reflexivity|].
  split; [intros w' Hnone; by apply chat_message_unknown|].
  intros Hnone. cbn. rewrite (delete_insert_id _ _ _ Hnone). apply world_eta.
Qed.

(** C8: [cleanup_chat] returns on every id, leaves no entry for it, leaves
    every other entry, the base URL and the posted requests as they were,
    and a second call changes nothing more. *)
Theorem cleanup_chat_idempotent chat_id w :
  let r := cleanup_chat chat_id w in
  fst r = Returned tt /\
  chat_sessions (self (snd r)) !! chat_id = None /\
  (forall other, other <> chat_id ->
     chat_sessions (self (snd r)) !! other = chat_sessions (self w) !! other) /\
  base_url (self (snd r)) = base_url (self w) /\
  wire (snd r) = wire w /\
  cleanup_chat chat_id (snd r) = (Returned tt, snd r).
Proof.
  intros r. subst r. rewrite !cleanup_chat_eq. cbn.
  split; [reflexivity|].
  split; [apply lookup_delete_eq|].
  split; [intros other Hne; by apply lookup_delete_ne|].
  split; [reflexivity|]. split; [reflexivity|].
  by rewrite delete_delete_eq.
Qed.

(** ** Stateless queries *)

(** C9: [single_query] leaves the client object, and with it the session
    table, exactly as it was, whatever the daemon does; so does the route
    when the request names no session. *)
Theorem single_query_keeps_sessions d query_model instruction parameters w :
  self (snd (single_query d query_model instruction parameters w)) = self w /\
  chat_sessions (self (snd (single_query d query_model instruction parameters w))) =
    chat_sessions (self w) /\
  (forall validation_text req,
     truthy (main.chat_id req) = false ->
     self (snd (main.process validation_text d req w)) = self w).
Proof.
  rewrite single_query_eq. cbn [snd posted self].
  split; [reflexivity|]. split; [reflexivity|].
  intros validation_text req Hfalsy.
  rewrite (process_stateless _ _ _ _ Hfalsy). cbv zeta. cbn [snd].
  by rewrite single_query_eq.
Qed.

(** ** Creation *)

(** C10: [init_chat] with the empty string as system prompt does what it
    does with no prompt: the session is stored with an empty transcript.
    Only a truthy prompt gives a system turn. *)
Theorem empty_system_prompt_no_turn chat_id model w :
  init_chat chat_id model (Some "") w = init_chat chat_id model None w /\
  transcript (snd (init_chat chat_id model (Some "") w)) chat_id = Some [] /\
  bound_model (snd (init_chat chat_id model (Some "") w)) chat_id = Some model /\
  (forall system_prompt,
     transcript (snd (init_chat chat_id model system_prompt w)) chat_id =
       Some (if truthy system_prompt
             then [ {| role := "system";
                       content := JStr (default "" system_prompt) |} ]
             else [])).
Proof.
  split; [reflexivity|].
  rewrite init_chat_eq. cbn [snd].
  rewrite transcript_with_session, bound_model_with_session.
  split; [reflexivity|]. split; [reflexivity|].
  intros system_prompt. rewrite init_chat_eq. cbn [snd].
  by rewrite transcript_with_session.
Qed.

(** * Further properties of the client and the routes *)

(** ** One session at a time *)

Lemma chat_message_other d chat_id message parameters w other :
  other <> chat_id ->
  chat_sessions (self (snd (chat_message d chat_id message parameters w))) !! other =
    chat_sessions (self w) !! other.
Proof.
  intros Hne.
  destruct (chat_sessions (self w) !! chat_id) as [s|] eqn:Hs.
  - rewrite (chat_message_known _ _ _ _ _ _ Hs).
    destruct (chat_text _); cbn; by rewrite !lookup_insert_ne.
  - by rewrite (chat_message_unknown _ _ _ _ _ Hs).
Qed.

Lemma chat_messages_other chat_id turns other :
  other <> chat_id -> forall w,
  chat_sessions (self (snd (chat_messages chat_id turns w))) !! other =
    chat_sessions (self w) !! other.
Proof.
  intros Hne. induction turns as [|t turns IH]; intros w; [reflexivity|].
  rewrite chat_messages_cons. cbn [snd].
  rewrite IH. by apply chat_message_other.
Qed.

(** X1: a turn, a run of turns, or the creation of a session under one id
    leaves the entry of every other id as it was, present or absent. *)
Theorem other_sessions_untouched d chat_id message parameters model
    system_prompt turns w other :
  other <> chat_id ->
  chat_sessions (self (snd (chat_message d chat_id message parameters w))) !! other =
    chat_sessions (self w) !! other /\
  chat_sessions (self (snd (chat_messages chat_id turns w))) !! other =
    chat_sessions (self w) !! other /\
  chat_sessions (self (snd (init_chat chat_id model system_prompt w))) !! other =
    chat_sessions (self w) !! other.
Proof.
  intros Hne.
  split; [by apply chat_message_other|].
  split; [by apply chat_messages_other|].
  rewrite init_chat_eq. cbn. by rewrite lookup_insert_ne.
Qed.

(** Two sessions on the same model: a turn on [X] leaves [Y] where it was. *)
Lemma other_sessions_untouched_two_sessions :
  let w := snd (init_chat "Y" "m" (Some "be brief")
                  (snd (init_chat "X" "m" None fresh_world))) in
  transcript (snd (chat_message (answering (chat_body "hello")) "X" "hi" ∅ w)) "Y" =
    transcript w "Y".
Proof.
  intros w. unfold transcript.
  destruct (other_sessions_untouched (answering (chat_body "hello")) "X" "hi" ∅
              "m" None [] w "Y") as (Hturn & _ & _).
  - discriminate.
  - by rewrite Hturn.
Defined.

(** ** Runs with failures *)

(** X2: on a stored session, every call of a run leaves its user turn in the
    transcript, followed by its reply exactly when it returned; the calls
    that did not return raised the gateway error; the bound model stays. *)
Theorem run_leaves_trace chat_id turns : forall w s,
  chat_sessions (self w) !! chat_id = Some s ->
  let r := chat_messages chat_id turns w in
  length (fst r) = length turns /\
  chat_sessions (self (snd r)) !! chat_id =
    Some {| model := model s;
            messages := messages s ++ run_trace turns (fst r) |} /\
  Forall (fun o => match o with
                   | Returned _ => True
                   | Raised e => GatewayError e
                   end) (fst r).
Proof.
  induction turns as [|t turns IH]; intros w s Hs.
  - cbn. rewrite Hs, app_nil_r. destruct s. by repeat split.
  - cbn zeta. rewrite chat_messages_cons. cbn [fst snd].
    destruct (chat_message_trace (turn_daemon t) chat_id (turn_message t)
                (turn_parameters t) w s Hs) as [Hs1 Hgw].
    destruct (IH _ _ Hs1) as (Hlen & Hfin & Hall).
    split; [cbn [length]; f_equal; exact Hlen|].
    split; [|by constructor].
    rewrite Hfin, run_trace_cons. cbn [model messages].
    rewrite <- app_assoc. unfold turn_trace.
    by destruct (fst (chat_message _ _ _ _ w)).
Qed.

(** Scenario C as a run: a failed turn, then an answered one. *)
Lemma run_leaves_trace_scenario_C :
  let w := snd (init_chat "X" "m" None fresh_world) in
  let turns :=
    [ {| turn_message := "hi"; turn_parameters := ∅; turn_daemon := unreachable |};
      {| turn_message := "again"; turn_parameters := ∅;
         turn_daemon := answering (chat_body "hello") |} ] in
  transcript (snd (chat_messages "X" turns w)) "X" =
    Some [user_turn "hi"; user_turn "again"; assistant_turn (JStr "hello")].
Proof.
  intros w turns. unfold transcript.
  destruct (run_leaves_trace "X" turns w {| model := "m"; messages := [] |})
    as (_ & Hfin & _).
  - vm_compute. reflexivity.
  - rewrite Hfin. vm_compute. reflexivity.
Defined.

(** ** What goes on the wire *)

(** X3: a run of N turns on a stored session issues exactly N requests, one
    per turn whether it returned or raised, each to the chat endpoint of the
    client's base URL with the 60 second limit; nothing is retried and
    nothing that was on the wire before is touched. *)
Theorem run_posts_once_per_turn chat_id turns : forall w s,
  chat_sessions (self w) !! chat_id = Some s ->
  exists posts,
    wire (snd (chat_messages chat_id turns w)) = wire w ++ posts /\
    length posts = length turns /\
    Forall (fun p => url p = base_url (self w) +:+ "/api/chat" /\
                     timeout p = 60%Z) posts.
Proof.
  induction turns as [|t turns IH]; intros w s Hs.
  - exists []. cbn. rewrite app_nil_r. by repeat split.
  - rewrite chat_messages_cons. cbn [snd].
    destruct (chat_message_trace (turn_daemon t) chat_id (turn_message t)
                (turn_parameters t) w s Hs) as [Hs1 _].
    destruct (chat_message_post (turn_daemon t) chat_id (turn_message t)
                (turn_parameters t) w s Hs) as [Hw Hbase].
    destruct (IH _ _ Hs1) as (posts & Hposts & Hlen & Hall).
    eexists (_ :: posts). rewrite Hposts, Hw, <- app_assoc.
    split; [reflexivity|]. split; [cbn; by rewrite Hlen|].
    constructor; [by split|]. by rewrite <- Hbase.
Qed.

(** Two turns on [X], the first one failed: two requests. *)
Lemma run_posts_once_per_turn_two_turns :
  let w := snd (init_chat "X" "m" None fresh_world) in
  let turns :=
    [ {| turn_message := "hi"; turn_parameters := ∅; turn_daemon := unreachable |};
      {| turn_message := "again"; turn_parameters := ∅;
         turn_daemon := answering (chat_body "hello") |} ] in
  length (wire (snd (chat_messages "X" turns w))) = 2.
Proof.
  intros w turns.
  destruct (run_posts_once_per_turn "X" turns w {| model := "m"; messages := [] |})
    as (posts & Hposts & Hlen & _).
  - vm_compute. reflexivity.
  - rewrite Hposts, length_app, Hlen. reflexivity.
Defined.

(** X4: a run of turns on an id without entry changes nothing: every call
    raises the session-not-found error, no request is issued and no session
    comes into being. *)
Theorem run_on_unknown_session chat_id turns w :
  chat_sessions (self w) !! chat_id = None ->
  chat_messages chat_id turns w =
    (replicate (length turns)
       (Raised (Exn ValueError ("Chat session " +:+ chat_id +:+ " not found"))),
     w).
Proof.
  intros Hnone. induction turns as [|t turns IH]; [reflexivity|].
  rewrite chat_messages_cons, (chat_message_unknown _ _ _ _ _ Hnone).
  cbn [fst snd]. by rewrite IH.
Qed.

(** Scenario B of the spec, twice in a row. *)
Lemma run_on_unknown_session_scenario_B :
  let turn := {| turn_message := "hi"; turn_parameters := ∅;
                 turn_daemon := answering (chat_body "hello") |} in
  snd (chat_messages "unknown-id" [turn; turn] fresh_world) = fresh_world.
Proof.
  intros turn.
  by rewrite (run_on_unknown_session "unknown-id" [turn; turn] fresh_world eq_refl).
Defined.

(** X5: in a run on a stored session, the request of the turn at position
    [i] carries, unless that turn's parameters have a key [messages], the
    whole history: the transcript before the run, what the first [i] turns
    left, and the new user turn. *)
Theorem run_sends_history chat_id turns : forall w s i t p,
  chat_sessions (self w) !! chat_id = Some s ->
  let r := chat_messages chat_id turns w in
  turns !! i = Some t ->
  wire (snd r) !! (length (wire w) + i) = Some p ->
  turn_parameters t !! "messages" = None ->
  payload p !! "messages" =
    Some (json_of_messages
            (messages s ++ run_trace (take i turns) (take i (fst r)) ++
             [user_turn (turn_message t)])).
Proof.
  induction turns as [|t0 turns IH]; intros w s i t p Hs r Ht Hp Hfree;
    [discriminate|].
  subst r. rewrite chat_messages_cons in Hp |- *. cbn [fst snd] in Hp |- *.
  destruct (chat_message_trace (turn_daemon t0) chat_id (turn_message t0)
              (turn_parameters t0) w s Hs) as [Hs1 _].
  destruct (chat_message_post (turn_daemon t0) chat_id (turn_message t0)
              (turn_parameters t0) w s Hs) as [Hw _].
  destruct (chat_messages_wire chat_id turns _ _ Hs1) as (posts & Hposts & _).
  destruct i as [|i].
  - injection Ht as ->.
    rewrite Hposts, Hw, <- app_assoc, Nat.add_0_r in Hp.
    rewrite lookup_app_r, Nat.sub_diag in Hp by lia.
    injection Hp as <-. cbn [payload chat_post].
    rewrite chat_payload_messages by exact Hfree. reflexivity.
  - specialize (IH _ _ i t p Hs1). cbn zeta in IH.
    rewrite Hw, length_app in IH. cbn [length] in IH.
    replace (length (wire w) + 1 + i) with (length (wire w) + S i) in IH by lia.
    rewrite (IH Ht Hp Hfree). cbn [take messages].
    rewrite run_trace_cons, <- !app_assoc. unfold turn_trace.
    by destruct (fst (chat_message _ _ _ _ w)).
Qed.

(** Scenario C: the request of the second turn carries the unanswered first
    user turn. *)
Lemma run_sends_history_scenario_C :
  let w := snd (init_chat "X" "m" None fresh_world) in
  let p := chat_post (self w)
             {| model := "m"; messages := [user_turn "hi"; user_turn "again"] |} ∅ in
  payload p !! "messages" =
    Some (json_of_messages [user_turn "hi"; user_turn "again"]).
Proof.
  intros w p.
  pose (turns :=
    [ {| turn_message := "hi"; turn_parameters := ∅; turn_daemon := unreachable |};
      {| turn_message := "again"; turn_parameters := ∅;
         turn_daemon := answering (chat_body "hello") |} ]).
  rewrite (run_sends_history "X" turns w {| model := "m"; messages := [] |} 1
             {| turn_message := "again"; turn_parameters := ∅;
                turn_daemon := answering (chat_body "hello") |} p).
  - vm_compute. reflexivity.
  - vm_compute. reflexivity.
  - reflexivity.
  - vm_compute. reflexivity.
  - reflexivity.
Defined.

(** ** The routes *)

(** X6: the [/process] route never raises, whatever the daemon does and
    whether or not the session exists: it returns a response that echoes the
    request's chat id and never holds both a result and an error.  The
    result is set exactly when the operation it called returned a string;
    when that returned null the response has neither result nor error; when
    it returned any other value the error is the validation text; when it
    raised the error is the text of the exception. *)
Theorem process_reports_in_band validation_text d req w :
  let o :=
    fst (if truthy (main.chat_id req)
         then chat_message d (default "" (main.chat_id req))
                (main.instruction req) (main.parameters req) w
         else single_query d (main.model req)
                (main.instruction req) (main.parameters req) w) in
  exists resp,
    fst (main.process validation_text d req w) = Returned resp /\
    main.resp_chat_id resp = main.chat_id req /\
    (main.result resp = None \/ main.error resp = None) /\
    (forall text, main.result resp = Some text <-> o = Returned (JStr text)) /\
    (o = Returned JNull -> main.result resp = None /\ main.error resp = None) /\
    (forall v, o = Returned v -> v <> JNull -> (forall text, v <> JStr text) ->
       main.result resp = None /\ main.error resp = Some (validation_text v)) /\
    (forall e, o = Raised e ->
       main.result resp = None /\ main.error resp = Some (exn_str e)).
Proof.
  assert (forall chat_id (o : outcome json),
    let resp := process_response validation_text chat_id o in
    main.resp_chat_id resp = chat_id /\
    (main.result resp = None \/ main.error resp = None) /\
    (forall text, main.result resp = Some text <-> o = Returned (JStr text)) /\
    (o = Returned JNull -> main.result resp = None /\ main.error resp = None) /\
    (forall v, o = Returned v -> v <> JNull -> (forall text, v <> JStr text) ->
       main.result resp = None /\ main.error resp = Some (validation_text v)) /\
    (forall e, o = Raised e ->
       main.result resp = None /\ main.error resp = Some (exn_str e))) as Hresp.
  { intros chat_id o. cbv zeta. unfold process_response.
    destruct o as [v|e]; [destruct v|]; cbn; split_and!; naive_solver. }
  cbv zeta.
  destruct (truthy_cases (main.chat_id req)) as [Hfalsy|(chat_id & Hid & Hne)].
  - rewrite (process_stateless _ _ _ _ Hfalsy), Hfalsy. cbv zeta. cbn [fst].
    eexists. split; [reflexivity|]. apply Hresp.
  - rewrite (process_in_session _ _ _ _ _ Hid Hne), Hid, (truthy_nonempty _ Hne).
    cbv zeta. cbn [fst default].
    eexists. split; [reflexivity|]. apply Hresp.
Qed.

(** A reply whose content is null gives a response with neither result
    nor error; a reply whose content is a number gives the validation text
    as error. *)
Lemma process_null_and_number_replies :
  let w := snd (init_chat "X" "m" None fresh_world) in
  let null_reply := JObj {[ "message" := JObj {[ "content" := JNull ]} ]} in
  let number_reply := JObj {[ "message" := JObj {[ "content" := JInt 5 ]} ]} in
  fst (main.process string_type_error (answering null_reply) (turn_request "m" ∅) w) =
    Returned {| main.result := None; main.resp_chat_id := Some "X";
                main.error := None |} /\
  fst (main.process string_type_error (answering number_reply) (turn_request "m" ∅) w) =
    Returned {| main.result := None; main.resp_chat_id := Some "X";
                main.error := Some (string_type_error (JInt 5)) |}.
Proof. cbv zeta. split; vm_compute; reflexivity. Qed.

(** X7: a [/process] request that names an id without entry is answered
    with the not-found text as its error, no result, and nothing changes:
    no request is issued and no session is created. *)
Theorem process_unknown_session validation_text d req chat_id w :
  main.chat_id req = Some chat_id -> chat_id <> "" ->
  chat_sessions (self w) !! chat_id = None ->
  main.process validation_text d req w =
    (Returned {| main.result := None;
                 main.resp_chat_id := Some chat_id;
                 main.error := Some ("Chat session " +:+ chat_id +:+ " not found") |},
     w).
Proof.
  intros Hid Hne Hnone.
  rewrite (process_in_session _ _ _ _ _ Hid Hne).
  by rewrite (chat_message_unknown _ _ _ _ _ Hnone).
Qed.

(** Scenario B of the spec through the route. *)
Lemma process_unknown_session_scenario_B :
  fst (main.process string_type_error (answering (chat_body "hello"))
         {| main.model := "m"; main.instruction := "hi";
            main.chat_id := Some "unknown-id"; main.parameters := ∅ |}
         fresh_world) =
    Returned {| main.result := None;
                main.resp_chat_id := Some "unknown-id";
                main.error := Some "Chat session unknown-id not found" |}.
Proof.
  rewrite (process_unknown_session string_type_error (answering (chat_body "hello"))
             {| main.model := "m"; main.instruction := "hi";
                main.chat_id := Some "unknown-id"; main.parameters := ∅ |}
             "unknown-id" fresh_world).
  - reflexivity.
  - reflexivity.
  - discriminate.
  - reflexivity.
Defined.

(** X8: an empty string as chat id is no chat id: the route then makes the
    stateless query with the request's own model, exactly as when the field
    is absent, and a session stored under the empty id is neither read nor
    changed.  The two responses have the same result and error; the result
    is the text the query returned when it returned a string, and absent
    otherwise. *)
Theorem process_empty_chat_id_is_stateless validation_text d req w :
  let r_empty := main.process validation_text d (with_chat_id req (Some "")) w in
  let r_none := main.process validation_text d (with_chat_id req None) w in
  let q := single_query d (main.model req) (main.instruction req)
             (main.parameters req) w in
  snd r_empty = snd q /\
  snd r_none = snd q /\
  self (snd r_empty) = self w /\
  exists resp_empty resp_none,
    fst r_empty = Returned resp_empty /\
    fst r_none = Returned resp_none /\
    main.result resp_empty = main.result resp_none /\
    main.error resp_empty = main.error resp_none /\
    main.result resp_empty =
      match fst q with
      | Returned (JStr text) => Some text
      | _ => None
      end.
Proof.
  cbv zeta.
  rewrite (process_stateless validation_text d (with_chat_id req (Some "")) w eq_refl).
  rewrite (process_stateless validation_text d (with_chat_id req None) w eq_refl).
  cbv zeta. cbn [fst snd with_chat_id main.model main.instruction main.parameters
                 main.chat_id].
  split; [reflexivity|]. split; [reflexivity|].
  split; [by rewrite single_query_eq|].
  do 2 eexists. split; [reflexivity|]. split; [reflexivity|].
  unfold process_response.
  destruct (fst (single_query d _ _ _ w)) as [v|e]; [destruct v|]; by repeat split.
Qed.

Lemma route_init_chat_eq uuid req w :
  main.init_chat uuid req w =
    (Returned {| main.init_chat_id := uuid; main.init_error := None |},
     with_session w uuid
       {| model := main.init_model req;
          messages := system_turns (main.init_system_prompt req) |}).
Proof. reflexivity. Qed.

Lemma route_cleanup_chat_eq chat_id w :
  main.cleanup_chat chat_id w =
    (Returned {[ "status" := "success" ]}, snd (cleanup_chat chat_id w)).
Proof.
  unfold main.cleanup_chat, try_except, bind.
  by rewrite cleanup_chat_eq.
Qed.

(** X9: the life of a session through the three routes.  [/chat/init]
    answers with the identifier drawn and no error; a [/process] request
    naming that identifier is the turn on the new session, bound to the
    model given at creation; after [DELETE] the same request is answered
    with the not-found text and changes nothing. *)
Theorem route_lifecycle validation_text d uuid init_req req w :
  uuid <> "" ->
  main.chat_id req = Some uuid ->
  let r1 := main.init_chat uuid init_req w in
  let r2 := main.process validation_text d req (snd r1) in
  let r3 := main.cleanup_chat uuid (snd r2) in
  let r4 := main.process validation_text d req (snd r3) in
  fst r1 = Returned {| main.init_chat_id := uuid; main.init_error := None |} /\
  snd r2 = snd (chat_message d uuid (main.instruction req) (main.parameters req)
                  (snd r1)) /\
  (exists tail,
     chat_sessions (self (snd r2)) !! uuid =
       Some {| model := main.init_model init_req;
               messages := system_turns (main.init_system_prompt init_req) ++
                           user_turn (main.instruction req) :: tail |}) /\
  fst r3 = Returned {[ "status" := "success" ]} /\
  chat_sessions (self (snd r3)) !! uuid = None /\
  r4 = (Returned {| main.result := None;
                    main.resp_chat_id := Some uuid;
                    main.error := Some ("Chat session " +:+ uuid +:+ " not found") |},
        snd r3).
Proof.
  intros Hne Hid. cbv zeta.
  rewrite route_init_chat_eq. cbn [fst snd].
  set (s0 := {| model := main.init_model init_req;
                messages := system_turns (main.init_system_prompt init_req) |}).
  assert (chat_sessions (self (with_session w uuid s0)) !! uuid = Some s0) as Hs0
    by (cbn; by rewrite lookup_insert_eq).
  rewrite (process_in_session validation_text d req uuid _ Hid Hne).
  cbv zeta. cbn [fst snd].
  rewrite route_cleanup_chat_eq, cleanup_chat_eq. cbn [fst snd].
  split; [reflexivity|]. split; [reflexivity|]. split.
  { destruct (chat_message_trace d uuid (main.instruction req)
                (main.parameters req) _ _ Hs0) as [-> _].
    destruct (fst (chat_message _ _ _ _ _)); eexists; reflexivity. }
  split; [reflexivity|]. split; [cbn; apply lookup_delete_eq|].
  rewrite (process_in_session validation_text d req uuid _ Hid Hne).
  rewrite chat_message_unknown by (cbn; apply lookup_delete_eq).
  reflexivity.
Qed.

(** A session created, used once and closed through the routes. *)
Lemma route_lifecycle_one_turn :
  let uuid := "3f2b8c1e-0d4a-4b7e-9c55-6a1d2e7f8a90" in
  let req := {| main.model := "llama2"; main.instruction := "hi";
                main.chat_id := Some uuid; main.parameters := ∅ |} in
  let init_req := {| main.init_model := "llama2";
                     main.init_system_prompt := Some "Keep responses brief." |} in
  let w1 := snd (main.init_chat uuid init_req fresh_world) in
  let w2 := snd (main.process string_type_error (answering (chat_body "hello"))
                   req w1) in
  chat_sessions (self (snd (main.cleanup_chat uuid w2))) !! uuid = None.
Proof.
  intros uuid req init_req w1 w2.
  destruct (route_lifecycle string_type_error (answering (chat_body "hello"))
              uuid init_req req fresh_world) as (_ & _ & _ & _ & Hgone & _).
  - discriminate.
  - reflexivity.
  - exact Hgone.
Defined.

(** X10: [DELETE /chat/{chat_id}] answers [{"status": "success"}] for every
    id, stored or not, never the error dict, and leaves no entry for it. *)
Theorem route_cleanup_always_succeeds chat_id w :
  let r := main.cleanup_chat chat_id w in
  fst r = Returned {[ "status" := "success" ]} /\
  (forall text, fst r <> Returned {[ "error" := text ]}) /\
  chat_sessions (self (snd r)) !! chat_id = None /\
  snd r = snd (cleanup_chat chat_id w).
Proof.
  cbv zeta. rewrite route_cleanup_chat_eq. cbn [fst snd].
  split; [reflexivity|]. split.
  { intros text Heq.
    apply (f_equal (fun o : outcome (gmap string string) =>
                      match o with
                      | Returned m => m !! "status"
                      | Raised _ => None
                      end)) in Heq.
    rewrite lookup_singleton_eq, lookup_singleton_ne in Heq by discriminate.
    discriminate. }
  split; [|reflexivity].
  rewrite cleanup_chat_eq. cbn. apply lookup_delete_eq.
Qed.

(** ** The legacy entry point *)

Lemma run_ollama_eq d query_model instruction parameters w :
  run_ollama d query_model instruction parameters w =
    let p := generate_post (__init__ default_base_url) query_model instruction
               parameters in
    (match generate_text (d p) with
     | inl detail => Raised (Exn RuntimeError ("Ollama API error: " +:+ detail))
     | inr reply => Returned reply
     end,
     posted w p).
Proof.
  unfold run_ollama. rewrite single_query_eq. cbv zeta. cbn [self wire posted].
  by destruct w.
Qed.

(** X11: [run_ollama] works on a client of its own: it issues one request,
    always to the generate endpoint of the default base URL whatever base
    URL the caller's client has, never touches the caller's client or its
    sessions, and its outcome is that of [single_query] on a client with the
    default base URL. *)
Theorem run_ollama_uses_default_client d query_model instruction parameters w :
  let r := run_ollama d query_model instruction parameters w in
  self (snd r) = self w /\
  (exists p,
     wire (snd r) = wire w ++ [p] /\
     url p = "http://localhost:11434/api/generate" /\
     timeout p = 60%Z /\
     payload p = generate_payload query_model instruction parameters) /\
  (forall w0,
     base_url (self w0) = default_base_url ->
     fst r = fst (single_query d query_model instruction parameters w0)).
Proof.
  cbv zeta. rewrite run_ollama_eq. cbv zeta. cbn [fst snd].
  split; [reflexivity|]. split.
  - eexists. split; [reflexivity|]. by repeat split.
  - intros w0 Hbase. rewrite single_query_eq. cbv zeta. cbn [fst].
    unfold generate_post. by rewrite Hbase.
Qed.

(** ** Creating again *)

(** X12: [init_chat] on an id overwrites whatever is stored under it: after
    any run of turns on the id, creating it again gives the session table
    that creating it at the start would have given, so the conversation is
    forgotten; in particular of two creations the last one stands. *)
Theorem init_chat_forgets chat_id model system_prompt turns w :
  chat_sessions (self (snd (init_chat chat_id model system_prompt
                              (snd (chat_messages chat_id turns w))))) =
    chat_sessions (self (snd (init_chat chat_id model system_prompt w))) /\
  transcript (snd (init_chat chat_id model system_prompt
                     (snd (chat_messages chat_id turns w)))) chat_id =
    Some (system_turns system_prompt) /\
  (forall model0 system_prompt0,
     chat_sessions (self (snd (init_chat chat_id model system_prompt
                                 (snd (init_chat chat_id model0 system_prompt0 w))))) =
       chat_sessions (self (snd (init_chat chat_id model system_prompt w)))).
Proof.
  rewrite !init_chat_eq. cbn [snd].
  split; [|split].
  - apply map_eq. intros other. cbn.
    destruct (decide (other = chat_id)) as [->|Hne].
    + by rewrite !lookup_insert_eq.
    + rewrite !lookup_insert_ne by done. by apply chat_messages_other.
  - by rewrite transcript_with_session.
  - intros model0 system_prompt0. rewrite init_chat_eq. cbn.
    by rewrite insert_insert_eq.
Qed.

(** ** Operations on different ids commute *)

(** X13: closing one session and making a turn on another can be done in
    either order: the turn has the same outcome and the final state is the
    same. *)
Theorem turn_commutes_with_cleanup d chat_id message parameters other w :
  other <> chat_id ->
  fst (chat_message d chat_id message parameters (snd (cleanup_chat other w))) =
    fst (chat_message d chat_id message parameters w) /\
  snd (chat_message d chat_id message parameters (snd (cleanup_chat other w))) =
    snd (cleanup_chat other (snd (chat_message d chat_id message parameters w))).
Proof.
  intros Hne. rewrite !cleanup_chat_eq. cbn [snd].
  set (w' := {| self := {| base_url := base_url (self w);
                           chat_sessions := delete other (chat_sessions (self w)) |};
                wire := wire w |}).
  assert (chat_sessions (self w') !! chat_id = chat_sessions (self w) !! chat_id)
    as Hsame by (cbn; by rewrite lookup_delete_ne).
  destruct (chat_sessions (self w) !! chat_id) as [s|] eqn:Hs.
  - rewrite (chat_message_known d chat_id message parameters w' s Hsame).
    rewrite (chat_message_known d chat_id message parameters w s Hs).
    cbv zeta. unfold chat_post. cbn [self base_url].
    destruct (chat_text _); cbn; (split; [reflexivity|]);
      by rewrite ?delete_insert_ne.
  - rewrite (chat_message_unknown d chat_id message parameters w' Hsame).
    rewrite (chat_message_unknown d chat_id message parameters w Hs).
    split; reflexivity.
Qed.

(** Closing [Y] before or after a turn on [X]. *)
Lemma turn_commutes_with_cleanup_two_sessions :
  let w := snd (init_chat "Y" "m" None (snd (init_chat "X" "m" None fresh_world))) in
  let d := answering (chat_body "hello") in
  transcript (snd (chat_message d "X" "hi" ∅ (snd (cleanup_chat "Y" w)))) "X" =
    transcript (snd (cleanup_chat "Y" (snd (chat_message d "X" "hi" ∅ w)))) "X".
Proof.
  intros w d.
  destruct (turn_commutes_with_cleanup d "X" "hi" ∅ "Y" w) as [_ Hsnd].
  - discriminate.
  - by rewrite Hsnd.
Defined.

(** ** Invariants under any sequence of operations *)

Lemma run_ops_cons op ops w : run_ops (op :: ops) w = run_ops ops (run_op op w).
Proof. reflexivity. Qed.

Lemma well_formed_system_turns system_prompt :
  well_formed (system_turns system_prompt).
Proof.
  exists system_prompt, []. rewrite app_nil_r. split; [reflexivity|constructor].
Qed.

Lemma well_formed_unanswered ts message :
  well_formed ts -> well_formed (ts ++ [user_turn message]).
Proof.
  intros (sp & tail & -> & Hconv). exists sp, (tail ++ [user_turn message]).
  rewrite app_assoc. split; [reflexivity|by constructor].
Qed.

Lemma well_formed_answered ts message reply :
  well_formed ts -> well_formed (ts ++ [user_turn message; assistant_turn reply]).
Proof.
  intros (sp & tail & -> & Hconv).
  exists sp, (tail ++ [user_turn message; assistant_turn reply]).
  rewrite app_assoc. split; [reflexivity|by constructor].
Qed.

Lemma with_session_well_formed w chat_id s :
  sessions_well_formed w -> well_formed (messages s) ->
  sessions_well_formed (with_session w chat_id s).
Proof.
  intros Hw Hs other s'. cbn. rewrite lookup_insert.
  case_decide; [by intros [= <-]|apply Hw].
Qed.

Lemma chat_message_well_formed d chat_id message parameters w :
  sessions_well_formed w ->
  sessions_well_formed (snd (chat_message d chat_id message parameters w)).
Proof.
  intros Hw.
  destruct (chat_sessions (self w) !! chat_id) as [s|] eqn:Hs.
  - destruct (chat_message_trace d chat_id message parameters w s Hs) as [Hs1 _].
    intros other s'.
    destruct (decide (other = chat_id)) as [->|Hne].
    + rewrite Hs1. intros [= <-]. cbn [messages].
      destruct (fst (chat_message _ _ _ _ w));
        [apply well_formed_answered|apply well_formed_unanswered]; by eapply Hw.
    + rewrite chat_message_other by done. apply Hw.
  - by rewrite (chat_message_unknown _ _ _ _ _ Hs).
Qed.

Lemma cleanup_chat_well_formed chat_id w :
  sessions_well_formed w -> sessions_well_formed (snd (cleanup_chat chat_id w)).
Proof.
  intros Hw other s. rewrite cleanup_chat_eq. cbn.
  rewrite lookup_delete_Some. intros [_ Hs]. by eapply Hw.
Qed.

Lemma run_op_well_formed op w :
  sessions_well_formed w -> sessions_well_formed (run_op op w).
Proof.
  intros Hw.
  destruct op as [chat_id model0 system_prompt|d chat_id message parameters
                 |d model0 instruction parameters|d model0 instruction parameters
                 |chat_id|uuid req|validation_text d req|chat_id]; cbn [run_op].
  - rewrite init_chat_eq. cbn [snd].
    apply with_session_well_formed; [exact Hw|apply well_formed_system_turns].
  - by apply chat_message_well_formed.
  - by rewrite single_query_eq.
  - by rewrite run_ollama_eq.
  - by apply cleanup_chat_well_formed.
  - rewrite route_init_chat_eq. cbn [snd].
    apply with_session_well_formed; [exact Hw|apply well_formed_system_turns].
  - destruct (truthy_cases (main.chat_id req)) as [Hfalsy|(chat_id & Hid & Hne)].
    + rewrite (process_stateless _ _ _ _ Hfalsy). cbv zeta. cbn [snd].
      by rewrite single_query_eq.
    + rewrite (process_in_session _ _ _ _ _ Hid Hne). cbv zeta. cbn [snd].
      by apply chat_message_well_formed.
  - rewrite route_cleanup_chat_eq. cbn [snd]. by apply cleanup_chat_well_formed.
Qed.

Lemma run_ops_well_formed ops : forall w,
  sessions_well_formed w -> sessions_well_formed (run_ops ops w).
Proof.
  induction ops as [|op ops IH]; intros w Hw; [exact Hw|].
  rewrite run_ops_cons. apply IH. by apply run_op_well_formed.
Qed.

Lemma fresh_world_well_formed : sessions_well_formed fresh_world.
Proof. intros chat_id s. cbn. by rewrite lookup_empty. Qed.

Lemma conversation_roles tail :
  conversation tail ->
  Forall (fun m => role m = "user" \/ role m = "assistant") tail.
Proof.
  induction 1 as [|ts message _ IH|ts message reply _ IH]; [constructor| |].
  - apply Forall_app. split; [exact IH|]. constructor; [by left|constructor].
  - apply Forall_app. split; [exact IH|].
    constructor; [by left|]. constructor; [by right|constructor].
Qed.

Lemma conversation_reply_follows_user tail :
  conversation tail ->
  forall i m,
    tail !! i = Some m -> role m = "assistant" ->
    exists j u, i = S j /\ tail !! j = Some u /\ role u = "user".
Proof.
  induction 1 as [|ts message _ IH|ts message reply _ IH]; intros i m Hi Hm.
  - discriminate.
  - destruct (decide (i < length ts)) as [Hlt|Hge].
    + rewrite lookup_app_l in Hi by exact Hlt.
      destruct (IH i m Hi Hm) as (j & u & -> & Hj & Hu).
      exists j, u. split; [reflexivity|]. split; [|exact Hu].
      rewrite lookup_app_l by lia. exact Hj.
    + rewrite lookup_app_r in Hi by lia.
      destruct (i - length ts) as [|[|n]]; simplify_eq/=.
  - destruct (decide (i < length ts)) as [Hlt|Hge].
    + rewrite lookup_app_l in Hi by exact Hlt.
      destruct (IH i m Hi Hm) as (j & u & -> & Hj & Hu).
      exists j, u. split; [reflexivity|]. split; [|exact Hu].
      rewrite lookup_app_l by lia. exact Hj.
    + rewrite lookup_app_r in Hi by lia.
      destruct (i - length ts) as [|[|n]] eqn:Hk; simplify_eq/=.
      exists (length ts), (user_turn message).
      split; [lia|]. split; [|reflexivity].
      rewrite lookup_app_r by lia. by rewrite Nat.sub_diag.
Qed.

Lemma system_turns_roles system_prompt :
  Forall (fun m => role m = "system") (system_turns system_prompt).
Proof.
  unfold system_turns. destruct (truthy system_prompt); repeat constructor.
Qed.

(** X14: in every state the service can reach from its start, by any
    sequence of client calls and route calls on any ids, with any daemon
    behaviour, every stored transcript has these shapes: its roles are
    system, user and assistant only; a system turn occurs at most once and
    only at index 0; and every assistant turn comes right after a user
    turn. *)
Theorem reachable_transcripts_well_formed ops chat_id s :
  chat_sessions (self (run_ops ops fresh_world)) !! chat_id = Some s ->
  Forall (fun m => role m = "system" \/ role m = "user" \/ role m = "assistant")
    (messages s) /\
  system_count (messages s) <= 1 /\
  (forall i m, messages s !! i = Some m -> role m = "system" -> i = 0) /\
  (forall i m,
     messages s !! i = Some m -> role m = "assistant" ->
     exists j u, i = S j /\ messages s !! j = Some u /\ role u = "user").
Proof.
  intros Hs.
  destruct (run_ops_well_formed ops fresh_world fresh_world_well_formed _ _ Hs)
    as (sp & tail & -> & Hconv).
  pose proof (conversation_roles _ Hconv) as Hroles.
  pose proof (system_turns_roles sp) as Hsys.
  assert (Forall (fun m => role m <> "system") tail) as Hnot.
  { eapply Forall_impl; [exact Hroles|]. intros m [-> | ->]; discriminate. }
  split; [|split; [|split]].
  - apply Forall_app. split.
    + eapply Forall_impl; [exact Hsys|]. intros m Hm. by left.
    + eapply Forall_impl; [exact Hroles|]. intros m Hm. by right.
  - rewrite system_count_app, (system_count_none _ Hnot), Nat.add_0_r.
    unfold system_turns, system_count.
    destruct (truthy sp); [|cbn; lia].
    rewrite filter_cons_True by reflexivity. cbn. lia.
  - intros i m Hi Hm.
    destruct (decide (i < length (system_turns sp))) as [Hlt|Hge].
    + rewrite length_system_turns in Hlt. destruct (truthy sp); lia.
    + rewrite lookup_app_r in Hi by lia.
      apply list_elem_of_lookup_2 in Hi.
      rewrite Forall_forall in Hnot. by destruct (Hnot _ Hi).
  - intros i m Hi Hm.
    destruct (decide (i < length (system_turns sp))) as [Hlt|Hge].
    + rewrite lookup_app_l in Hi by exact Hlt.
      apply list_elem_of_lookup_2 in Hi.
      rewrite Forall_forall in Hsys. rewrite (Hsys _ Hi) in Hm. discriminate.
    + rewrite lookup_app_r in Hi by lia.
      destruct (conversation_reply_follows_user _ Hconv _ _ Hi Hm)
        as (j & u & Hij & Hj & Hu).
      exists (length (system_turns sp) + j), u.
      split; [lia|]. split; [|exact Hu].
      rewrite lookup_app_r by lia.
      by replace (length (system_turns sp) + j - length (system_turns sp)) with j
        by lia.
Qed.

(** A service run: a session is created through the route, a turn fails, a
    stateless query is made, a turn is answered. *)
Lemma reachable_transcripts_well_formed_run :
  let req := {| main.model := "llama2"; main.instruction := "hi";
                main.chat_id := Some "X"; main.parameters := ∅ |} in
  let ops :=
    [ OpRouteInit "X" {| main.init_model := "llama2";
                         main.init_system_prompt := Some "Keep responses brief." |};
      OpRouteProcess string_type_error unreachable req;
      OpQuery (answering (generate_body "4")) "llama2" "2+2?" ∅;
      OpRouteProcess string_type_error (answering (chat_body "hello")) req ] in
  exists s,
    chat_sessions (self (run_ops ops fresh_world)) !! "X" = Some s /\
    system_count (messages s) <= 1.
Proof.
  intros req ops.
  eexists. split; [vm_compute; reflexivity|].
  eapply (reachable_transcripts_well_formed ops "X").
  vm_compute. reflexivity.
Defined.

(** X15: no operation, client call or route, changes the base URL of the
    client, and each one issues at most one request and leaves the requests
    issued before it in place. *)
Theorem base_url_fixed_and_wire_grows ops : forall w,
  base_url (self (run_ops ops w)) = base_url (self w) /\
  exists posts,
    wire (run_ops ops w) = wire w ++ posts /\
    length posts <= length ops.
Proof.
  assert (forall op w,
            base_url (self (run_op op w)) = base_url (self w) /\
            exists posts, wire (run_op op w) = wire w ++ posts /\
                          length posts <= 1) as Hstep.
  { assert (forall d chat_id message parameters w,
              base_url (self (snd (chat_message d chat_id message parameters w))) =
                base_url (self w) /\
              exists posts,
                wire (snd (chat_message d chat_id message parameters w)) =
                  wire w ++ posts /\ length posts <= 1) as Hchat.
    { intros d chat_id message parameters w.
      destruct (chat_sessions (self w) !! chat_id) as [s|] eqn:Hs.
      - destruct (chat_message_post d chat_id message parameters w s Hs)
          as [-> ->].
        split; [reflexivity|]. eexists. split; [reflexivity|]. cbn. lia.
      - rewrite (chat_message_unknown _ _ _ _ _ Hs). cbn [snd].
        split; [reflexivity|]. exists []. split; [by rewrite app_nil_r|cbn; lia]. }
    assert (forall w : World, exists posts : list Post,
              wire w = wire w ++ posts /\ length posts <= 1) as Hnone.
    { intros w. exists []. split; [by rewrite app_nil_r|cbn; lia]. }
    assert (forall (w : World) p, exists posts : list Post,
              wire (posted w p) = wire w ++ posts /\ length posts <= 1) as Hone.
    { intros w p. exists [p]. split; [reflexivity|cbn; lia]. }
    intros op w.
    destruct op as [chat_id model0 system_prompt|d chat_id message parameters
                   |d model0 instruction parameters|d model0 instruction parameters
                   |chat_id|uuid req|validation_text d req|chat_id]; cbn [run_op].
    - rewrite init_chat_eq. cbn [snd]. split; [reflexivity|exact (Hnone w)].
    - apply Hchat.
    - rewrite single_query_eq. cbn [snd]. split; [reflexivity|exact (Hone w _)].
    - rewrite run_ollama_eq. cbn [snd]. split; [reflexivity|exact (Hone w _)].
    - rewrite cleanup_chat_eq. cbn [snd]. split; [reflexivity|exact (Hnone w)].
    - rewrite route_init_chat_eq. cbn [snd]. split; [reflexivity|exact (Hnone w)].
    - destruct (truthy_cases (main.chat_id req)) as [Hfalsy|(chat_id & Hid & Hne)].
      + rewrite (process_stateless _ _ _ _ Hfalsy). cbv zeta. cbn [snd].
        rewrite single_query_eq. cbn [snd]. split; [reflexivity|exact (Hone w _)].
      + rewrite (process_in_session _ _ _ _ _ Hid Hne). cbv zeta. cbn [snd].
        apply Hchat.
    - rewrite route_cleanup_chat_eq, cleanup_chat_eq. cbn [snd].
      split; [reflexivity|exact (Hnone w)]. }
  induction ops as [|op ops IH]; intros w.
  - split; [reflexivity|]. exists []. split; [by rewrite app_nil_r|cbn; lia].
  - rewrite run_ops_cons.
    destruct (Hstep op w) as [Hb (posts1 & Hw1 & Hl1)].
    destruct (IH (run_op op w)) as [Hb' (posts & Hw' & Hl)].
    split; [by rewrite Hb', Hb|].
    exists (posts1 ++ posts). rewrite Hw', Hw1, <- app_assoc.
    split; [reflexivity|]. rewrite length_app. cbn. lia.
Qed.

(** ** What an outcome depends on *)

(** X16: the outcome of [single_query] and the request it issues depend on
    the client's base URL and on the arguments only, not on any session or
    on what was issued before; the outcome of [chat_message] and its request
    depend, besides, only on the entry stored under the id it is given. *)
Theorem outcomes_read_one_session d query_model instruction chat_id message
    parameters w w' :
  base_url (self w) = base_url (self w') ->
  chat_sessions (self w) !! chat_id = chat_sessions (self w') !! chat_id ->
  fst (single_query d query_model instruction parameters w) =
    fst (single_query d query_model instruction parameters w') /\
  last (wire (snd (single_query d query_model instruction parameters w))) =
    last (wire (snd (single_query d query_model instruction parameters w'))) /\
  fst (chat_message d chat_id message parameters w) =
    fst (chat_message d chat_id message parameters w') /\
  chat_sessions (self (snd (chat_message d chat_id message parameters w))) !! chat_id =
    chat_sessions (self (snd (chat_message d chat_id message parameters w'))) !! chat_id.
Proof.
  intros Hbase Hsame.
  rewrite !single_query_eq. cbv zeta. cbn [fst snd posted wire].
  unfold generate_post. rewrite Hbase, !last_snoc.
  split; [reflexivity|]. split; [reflexivity|].
  destruct (chat_sessions (self w) !! chat_id) as [s|] eqn:Hs; symmetry in Hsame.
  - rewrite (chat_message_known _ _ _ _ _ _ Hs), (chat_message_known _ _ _ _ _ _ Hsame).
    cbv zeta. unfold chat_post. rewrite Hbase.
    destruct (chat_text _); cbn; by rewrite !lookup_insert_eq.
  - rewrite (chat_message_unknown _ _ _ _ _ Hs), (chat_message_unknown _ _ _ _ _ Hsame).
    cbn [fst snd]. by rewrite Hs, Hsame.
Qed.

(** The same stateless query from a fresh service and from one that holds a
    session. *)
Lemma outcomes_read_one_session_fresh_or_not :
  let d := answering (generate_body "4") in
  fst (single_query d "m" "2+2?" ∅ fresh_world) =
    fst (single_query d "m" "2+2?" ∅ (snd (init_chat "X" "m" None fresh_world))).
Proof.
  intros d.
  destruct (outcomes_read_one_session d "m" "2+2?" "Y" "hi" ∅ fresh_world
              (snd (init_chat "X" "m" None fresh_world))) as (Hq & _).
  - reflexivity.
  - vm_compute. reflexivity.
  - exact Hq.
Defined.

(** ** The keys of a payload *)

(** X17: the payload of a generate request, on any client, has the keys
    [model], [prompt] and [stream] and, besides them, exactly the caller's
    keys; the payload of a chat request on a stored session has [model],
    [messages] and [stream] and, besides them, exactly the caller's keys. *)
Theorem payload_keys d parameters w :
  (forall query_model instruction,
     exists p,
       last (wire (snd (single_query d query_model instruction parameters w))) =
         Some p /\
       dom (payload p) = dom parameters ∪ {[ "model"; "prompt"; "stream" ]}) /\
  (forall chat_id message s,
     chat_sessions (self w) !! chat_id = Some s ->
     exists p,
       last (wire (snd (chat_message d chat_id message parameters w))) = Some p /\
       dom (payload p) = dom parameters ∪ {[ "model"; "messages"; "stream" ]}).
Proof.
  split.
  - intros query_model instruction.
    eexists. rewrite wire_single_query, last_snoc. split; [reflexivity|].
    cbn [payload generate_post]. unfold generate_payload.
    rewrite dom_union_L, !dom_insert_L, dom_singleton_L. set_solver.
  - intros chat_id message s Hs.
    eexists. rewrite (wire_chat_message _ _ _ _ _ _ Hs), last_snoc.
    split; [reflexivity|].
    cbn [payload chat_post]. unfold chat_payload.
    rewrite dom_union_L, !dom_insert_L, dom_singleton_L. set_solver.
Qed.

(** The test script's stateless query, on a client without sessions, and its
    first turn: a temperature besides the core keys. *)
Lemma payload_keys_temperature :
  let w := snd (init_chat "X" "llama2" None fresh_world) in
  let query_parameters : gmap string json := {[ "temperature" := JFloat "0.1" ]} in
  let parameters : gmap string json := {[ "temperature" := JFloat "0.7" ]} in
  (exists p,
     last (wire (snd (single_query (answering (generate_body "Paris")) "llama2"
                        "What is the capital of France?" query_parameters
                        fresh_world))) = Some p /\
     dom (payload p) = {[ "temperature"; "model"; "prompt"; "stream" ]}) /\
  (exists p,
     last (wire (snd (chat_message (answering (chat_body "hello")) "X"
                        "My name is John. What's yours?" parameters w))) = Some p /\
     dom (payload p) = {[ "temperature"; "model"; "messages"; "stream" ]}).
Proof.
  intros w query_parameters parameters. split.
  - destruct (payload_keys (answering (generate_body "Paris")) query_parameters
                fresh_world) as [Hquery _].
    destruct (Hquery "llama2" "What is the capital of France?") as (p & Hp & Hdom).
    exists p. split; [exact Hp|]. rewrite Hdom. unfold query_parameters.
    rewrite dom_singleton_L. set_solver.
  - destruct (payload_keys (answering (chat_body "hello")) parameters w)
      as [_ Hchat].
    destruct (Hchat "X" "My name is John. What's yours?"
                {| model := "llama2"; messages := [] |}) as (p & Hp & Hdom);
      [vm_compute; reflexivity|].
    exists p. split; [exact Hp|]. rewrite Hdom. unfold parameters.
    rewrite dom_singleton_L. set_solver.
Defined.
